(** * simple-blog: a shallow embedding of [main.py]

    The Flask application of [main.py] is embedded as functions over an
    explicit store.  A view function is a computation in a state-and-exception
    monad [App]; the state is the database, the SQLAlchemy unit of work and the
    Flask session, and an exception is a Python exception escaping the view.
    [dispatch] plays the part of Flask: it runs a view and turns its outcome
    into a response.

    What [main.py] imports but does not define is kept abstract in the record
    [Extern]: the validators of the four forms (module [forms]) and the two
    password functions of [werkzeug.security].  Templates are not rendered: a
    page is the template's name with the arguments passed to it.  The database
    is the one [main.py] configures by default, SQLite, where a new row gets
    the next rowid and [ForeignKey] clauses are not enforced.  Matching a URL
    and a method to a rule is left to Flask; the model starts at the function
    the rule registered. *)

From Stdlib Require Import ZArith List String Bool Lia.
Import ListNotations.
Local Open Scope string_scope.
Local Open Scope list_scope.
Local Open Scope Z_scope.

(** ** Table schema (main.py, lines 38-69) *)

(** Primary keys are [db.Integer].  The two foreign keys of a row are nullable
    columns, so they are [option Z]; the text columns are always written with
    a string by this program. *)

Module User.
Record t : Type := mk
  { id : Z;
    email : string;
    name : string;
    password : string }.
End User.

Module BlogPost.
Record t : Type := mk
  { id : Z;
    title : string;
    subtitle : string;
    date : string;
    body : string;
    img_url : string;
    user_id : option Z }.
End BlogPost.

Module Comment.
Record t : Type := mk
  { id : Z;
    comment : string;
    user_id : option Z;
    post_id : option Z }.
End Comment.

(** The three tables, each in insertion order. *)
Record Database : Type := mkDatabase
  { user_table : list User.t;
    blog_posts_table : list BlogPost.t;
    comment_table : list Comment.t }.

Definition empty_db : Database := mkDatabase [] [] [].

(** ** Python values and exceptions *)

Inductive Value : Type :=
| VNone
| VInt (z : Z)
| VStr (s : string)
| VUser (u : option User.t)
| VComments (l : list Comment.t).

Inductive Exception : Type :=
| AttributeError (type_name attr : string)
| IntegrityError (constraint : string)
| UnmappedInstanceError
| HTTPException (code : Z).

Inductive Outcome (A : Type) : Type :=
| Return (a : A)
| Raise (e : Exception).
Arguments Return {A} a.
Arguments Raise {A} e.

(** ** The request, the session and the unit of work *)

Inductive Method : Type := GET | POST.

(** [fields] is [request.form]; [today] is [date.today().strftime("%B %d, %Y")]
    and [salt] is the randomness [generate_password_hash] draws. *)
Record Request : Type := mkRequest
  { method : Method;
    fields : list (string * string);
    today : string;
    salt : string }.

(** The signed session cookie: the key [_user_id] that flask-login keeps, and
    the queue of flashed messages (a template that shows them would empty
    it; no template is part of [main.py]). *)
Record Session : Type := mkSession
  { _user_id : option Z;
    _flashes : list string }.

Definition anonymous_session : Session := mkSession None [].

(** What [db.session] has been told and has not yet committed. *)
Inductive PendingOp : Type :=
| AddUser (name password email : string)
| AddBlogPost (title subtitle body img_url : string) (user_id : Z) (date : string)
| AddComment (comment : string) (post_id user_id : Z)
| SetBlogPostAttr (id : Z) (attr value : string)
| DeleteBlogPost (id : Z).

(** What outlives a request. *)
Record World : Type := mkWorld
  { database : Database;
    session : Session }.

(** What a view function sees and changes while it runs. *)
Record ReqState : Type := mkReqState
  { rs_db : Database;
    rs_session : Session;
    rs_pending : list PendingOp }.

(** ** The monad of view functions *)

Definition App (A : Type) : Type := ReqState -> Outcome A * ReqState.

Definition ret {A} (a : A) : App A := fun s => (Return a, s).

Definition bind {A B} (m : App A) (k : A -> App B) : App B :=
  fun s =>
    match m s with
    | (Return a, s') => k a s'
    | (Raise e, s') => (Raise e, s')
    end.

Definition raise {A} (e : Exception) : App A := fun s => (Raise e, s).

Declare Scope app_scope.
Delimit Scope app_scope with app.
Notation "x <- m ;; k" := (bind m (fun x => k))
  (at level 61, m at next level, right associativity) : app_scope.
Notation "m ;; k" := (bind m (fun _ => k))
  (at level 61, right associativity) : app_scope.
Local Open Scope app_scope.

Definition get_db : App Database := fun s => (Return (rs_db s), s).
Definition get_session : App Session := fun s => (Return (rs_session s), s).

Definition put_session (ss : Session) : App unit :=
  fun s => (Return tt, mkReqState (rs_db s) ss (rs_pending s)).

(** ** The storage layer *)

(** SQLite gives a new row of an [INTEGER PRIMARY KEY] table one more than the
    largest key in use, and 1 in an empty table. *)
Definition next_rowid (ids : list Z) : Z :=
  match ids with
  | [] => 1
  | i :: rest => 1 + fold_right Z.max i rest
  end.

(** [Model.query.get(id)]: the row with that primary key, or [None]. *)
Definition User_query_get (d : Database) (id : Z) : option User.t :=
  find (fun u => User.id u =? id) (user_table d).

Definition BlogPost_query_get (d : Database) (id : Z) : option BlogPost.t :=
  find (fun p => BlogPost.id p =? id) (blog_posts_table d).

(** [BlogPost.query.all()]. *)
Definition BlogPost_query_all (d : Database) : list BlogPost.t :=
  blog_posts_table d.

(** [User.query.filter_by(email=e).first()]. *)
Definition User_query_filter_by_email_first (d : Database) (e : string)
  : option User.t :=
  find (fun u => String.eqb (User.email u) e) (user_table d).

(** [Comment.query.filter_by(post_id=i).all()]. *)
Definition Comment_query_filter_by_post_id_all (d : Database) (i : Z)
  : list Comment.t :=
  filter (fun c => match Comment.post_id c with
                   | Some j => j =? i
                   | None => false
                   end) (comment_table d).

(** The columns a [SetBlogPostAttr] can write; [title] is the one under a
    unique constraint. *)
Definition BlogPost_set (p : BlogPost.t) (attr v : string) : BlogPost.t :=
  if String.eqb attr "title" then
    BlogPost.mk (BlogPost.id p) v (BlogPost.subtitle p) (BlogPost.date p)
                (BlogPost.body p) (BlogPost.img_url p) (BlogPost.user_id p)
  else if String.eqb attr "subtitle" then
    BlogPost.mk (BlogPost.id p) (BlogPost.title p) v (BlogPost.date p)
                (BlogPost.body p) (BlogPost.img_url p) (BlogPost.user_id p)
  else if String.eqb attr "img_url" then
    BlogPost.mk (BlogPost.id p) (BlogPost.title p) (BlogPost.subtitle p)
                (BlogPost.date p) (BlogPost.body p) v (BlogPost.user_id p)
  else if String.eqb attr "body" then
    BlogPost.mk (BlogPost.id p) (BlogPost.title p) (BlogPost.subtitle p)
                (BlogPost.date p) v (BlogPost.img_url p) (BlogPost.user_id p)
  else p.

Definition title_taken (posts : list BlogPost.t) (t : string) : bool :=
  existsb (fun p => String.eqb (BlogPost.title p) t) posts.

Definition email_taken (users : list User.t) (e : string) : bool :=
  existsb (fun u => String.eqb (User.email u) e) users.

(** When a parent row is deleted through a relationship that has no delete
    cascade, SQLAlchemy sets the foreign key of the children to NULL. *)
Definition nullify_post (i : Z) (c : Comment.t) : Comment.t :=
  match Comment.post_id c with
  | Some j =>
      if j =? i
      then Comment.mk (Comment.id c) (Comment.comment c) (Comment.user_id c) None
      else c
  | None => c
  end.

(** One statement of a flush.  The result is the database after it together
    with the key given to an inserted row, or the constraint that refused it.
    The unique constraints are those of lines 42 and 55; SQLite, the default
    [DATABASE_URI], does not check the [ForeignKey] clauses. *)
Definition flush_op (d : Database) (op : PendingOp)
  : Database * list Z + string :=
  match op with
  | AddUser n pw e =>
      if email_taken (user_table d) e then inr "user.email"
      else
        let i := next_rowid (map User.id (user_table d)) in
        inl (mkDatabase (user_table d ++ [User.mk i e n pw])
                        (blog_posts_table d) (comment_table d), [i])
  | AddBlogPost t st b img uid dt =>
      if title_taken (blog_posts_table d) t then inr "blog_posts.title"
      else
        let i := next_rowid (map BlogPost.id (blog_posts_table d)) in
        inl (mkDatabase (user_table d)
                        (blog_posts_table d
                           ++ [BlogPost.mk i t st dt b img (Some uid)])
                        (comment_table d), [i])
  | AddComment c pid uid =>
      let i := next_rowid (map Comment.id (comment_table d)) in
      inl (mkDatabase (user_table d) (blog_posts_table d)
                      (comment_table d ++ [Comment.mk i c (Some uid) (Some pid)]),
           [i])
  | SetBlogPostAttr i attr v =>
      if String.eqb attr "title"
         && title_taken
              (filter (fun p => negb (BlogPost.id p =? i)) (blog_posts_table d)) v
      then inr "blog_posts.title"
      else
        inl (mkDatabase (user_table d)
                        (map (fun p => if BlogPost.id p =? i
                                       then BlogPost_set p attr v else p)
                             (blog_posts_table d))
                        (comment_table d), [])
  | DeleteBlogPost i =>
      inl (mkDatabase (user_table d)
                      (filter (fun p => negb (BlogPost.id p =? i))
                              (blog_posts_table d))
                      (map (nullify_post i) (comment_table d)), [])
  end.

(** A flush runs the pending statements in order inside one transaction. *)
Fixpoint flush (d : Database) (ops : list PendingOp)
  : Database * list Z + string :=
  match ops with
  | [] => inl (d, [])
  | op :: rest =>
      match flush_op d op with
      | inr c => inr c
      | inl (d1, ids1) =>
          match flush d1 rest with
          | inr c => inr c
          | inl (d2, ids2) => inl (d2, ids1 ++ ids2)
          end
      end
  end.

(** [db.session.add(obj)]. *)
Definition db_session_add (op : PendingOp) : App unit :=
  fun s => (Return tt, mkReqState (rs_db s) (rs_session s) (rs_pending s ++ [op])).

(** [db.session.delete(obj)]: [None] is not a mapped instance. *)
Definition db_session_delete (obj : option BlogPost.t) : App unit :=
  match obj with
  | None => raise UnmappedInstanceError
  | Some p => db_session_add (DeleteBlogPost (BlogPost.id p))
  end.

(** [db.session.commit()]: all pending statements take effect, or none does
    and [IntegrityError] is raised.  It returns the keys of the inserted rows,
    which the Python objects carry afterwards. *)
Definition db_session_commit : App (list Z) :=
  fun s =>
    match flush (rs_db s) (rs_pending s) with
    | inl (d', ids) => (Return ids, mkReqState d' (rs_session s) [])
    | inr c => (Raise (IntegrityError c), mkReqState (rs_db s) (rs_session s) [])
    end.

(** A query reads the committed rows.  No view of [main.py] queries between
    an [add] and its [commit], so autoflush never shows. *)
Definition query {A} (q : Database -> A) : App A :=
  fun s => (Return (q (rs_db s)), s).

(** ** Forms (module [forms], not part of [main.py]) *)

Inductive FormClass : Type :=
| CreatePostForm
| RegisterUserForm
| LoginUserForm
| CreateCommentForm.

(** A Flask-WTF form: bound to [request.form] when the request is a POST,
    and otherwise holding the keyword arguments it was built with. *)
Record Form : Type := mkForm
  { form_class : FormClass;
    is_submitted : bool;
    formdata : list (string * string);
    defaults : list (string * Value) }.

Definition new_form (cls : FormClass) (req : Request)
           (kwargs : list (string * Value)) : Form :=
  match method req with
  | POST => mkForm cls true (fields req) kwargs
  | GET => mkForm cls false [] kwargs
  end.

Fixpoint lookup (k : string) (l : list (string * string)) : option string :=
  match l with
  | [] => None
  | (k', v) :: rest => if String.eqb k' k then Some v else lookup k rest
  end.

(** [form.<field>.data] of a submitted form; a field the request left out
    reads as the empty string.  Every view reads it only after
    [validate_on_submit] has answered true. *)
Definition data (f : Form) (field : string) : string :=
  match lookup field (formdata f) with
  | Some v => v
  | None => ""
  end.

(** The collaborators [main.py] imports: the validators that module [forms]
    attaches to each form class, and [werkzeug.security]. *)
Record Extern : Type := mkExtern
  { validate : FormClass -> list (string * string) -> bool;
    generate_password_hash : string -> string -> string;
    check_password_hash : string -> string -> bool }.

Definition validate_on_submit (ext : Extern) (f : Form) : bool :=
  is_submitted f && validate ext (form_class f) (formdata f).

(** ** flask-login and flash *)

(** [current_user]: the row [load_user] finds for the session's [_user_id];
    [None] stands for the anonymous user, which is also what a session whose
    identifier matches no row gets. *)
Definition load_user (d : Database) (id : Z) : option User.t :=
  User_query_get d id.

Definition user_of_session (d : Database) (ss : Session) : option User.t :=
  match _user_id ss with
  | Some i => load_user d i
  | None => None
  end.

Definition current_user : App (option User.t) :=
  fun s => (Return (user_of_session (rs_db s) (rs_session s)), s).

Definition is_authenticated (u : option User.t) : bool :=
  match u with
  | Some _ => true
  | None => false
  end.

(** [current_user.id]; the anonymous user has no such attribute. *)
Definition current_user_id (u : option User.t) : App Z :=
  match u with
  | Some usr => ret (User.id usr)
  | None => raise (AttributeError "AnonymousUserMixin" "id")
  end.

Definition login_user (id : Z) : App unit :=
  ss <- get_session ;;
  put_session (mkSession (Some id) (_flashes ss)).

Definition logout_user : App unit :=
  ss <- get_session ;;
  put_session (mkSession None (_flashes ss)).

Definition flash (message : string) : App unit :=
  ss <- get_session ;;
  put_session (mkSession (_user_id ss) (_flashes ss ++ [message])).

(** ** Responses *)

Inductive Url : Type :=
| url_for (endpoint : string) (values : list (string * Value)).

Inductive TemplateArg : Type :=
| TForm (f : Form)
| TPosts (l : list BlogPost.t)
| TPost (p : option BlogPost.t)
| TComments (l : list Comment.t).

(** The last two constructors are what Flask answers when a view raises: the
    page of an [HTTPException], and 500 for any other exception. *)
Inductive Response : Type :=
| render_template (template : string) (context : list (string * TemplateArg))
| redirect (location : Url)
| error_page (code : Z)
| internal_server_error (e : Exception).

Definition status_code (r : Response) : Z :=
  match r with
  | render_template _ _ => 200
  | redirect _ => 302
  | error_page c => c
  | internal_server_error _ => 500
  end.

Definition abort {A} (code : Z) : App A := raise (HTTPException code).

(** ** Attribute access on a fetched post *)

(** [obj.attr] where [obj] came from [BlogPost.query.get]: the attributes are
    the columns and relationships of lines 41-49; any other name, and any
    name at all on [None], is an [AttributeError]. *)
Definition getattr_BlogPost (obj : option BlogPost.t) (attr : string)
  : App Value :=
  match obj with
  | None => raise (AttributeError "NoneType" attr)
  | Some p =>
      if String.eqb attr "id" then ret (VInt (BlogPost.id p))
      else if String.eqb attr "title" then ret (VStr (BlogPost.title p))
      else if String.eqb attr "subtitle" then ret (VStr (BlogPost.subtitle p))
      else if String.eqb attr "date" then ret (VStr (BlogPost.date p))
      else if String.eqb attr "body" then ret (VStr (BlogPost.body p))
      else if String.eqb attr "img_url" then ret (VStr (BlogPost.img_url p))
      else if String.eqb attr "user_id" then
        ret match BlogPost.user_id p with
            | Some i => VInt i
            | None => VNone
            end
      else if String.eqb attr "user" then
        query (fun d => VUser match BlogPost.user_id p with
                              | Some i => User_query_get d i
                              | None => None
                              end)
      else if String.eqb attr "comment" then
        query (fun d =>
                 VComments (Comment_query_filter_by_post_id_all d (BlogPost.id p)))
      else raise (AttributeError "BlogPost" attr)
  end.

(** [obj.attr = value] on a row the session tracks: written at the commit. *)
Definition setattr_BlogPost (obj : option BlogPost.t) (attr value : string)
  : App unit :=
  match obj with
  | None => raise (AttributeError "NoneType" attr)
  | Some p => db_session_add (SetBlogPostAttr (BlogPost.id p) attr value)
  end.

(** The ten [app.route] rules. *)
Inductive Route : Type :=
| route_get_all_posts
| route_register
| route_login
| route_logout
| route_show_post (post_id : Z)
| route_about
| route_contact
| route_add_new_post
| route_edit_post (post_id : Z)
| route_delete_post (post_id : Z).

(** ** The views (main.py, lines 79-220) *)

Section Views.

Variable ext : Extern.

(** Lines 79-86. *)
Definition admin_only {A} (fn : App A) : App A :=
  u <- current_user ;;
  is_admin <- (if is_authenticated u
               then (i <- current_user_id u ;; ret (i =? 1))
               else ret false) ;;
  if is_admin then fn else abort 403.

(** Lines 89-92. *)
Definition get_all_posts : App Response :=
  posts <- query BlogPost_query_all ;;
  ret (render_template "index.html" [("all_posts", TPosts posts)]).

(** Lines 95-116. *)
Definition register (req : Request) : App Response :=
  u <- current_user ;;
  if is_authenticated u then ret (redirect (url_for "get_all_posts" []))
  else
    let form := new_form RegisterUserForm req [] in
    if validate_on_submit ext form then
      already_exists <-
        query (fun d => User_query_filter_by_email_first d (data form "email")) ;;
      match already_exists with
      | Some _ =>
          flash "That email already exists. Please log in instead." ;;
          ret (redirect (url_for "login" []))
      | None =>
          db_session_add
            (AddUser (data form "name")
                     (generate_password_hash ext (salt req)
                                             (data form "password"))
                     (data form "email")) ;;
          ids <- db_session_commit ;;
          login_user (hd 0 ids) ;;
          ret (redirect (url_for "get_all_posts" []))
      end
    else ret (render_template "register.html" [("form", TForm form)]).

(** Lines 119-134. *)
Definition login (req : Request) : App Response :=
  u <- current_user ;;
  if is_authenticated u then ret (redirect (url_for "get_all_posts" []))
  else
    let form := new_form LoginUserForm req [] in
    let page := ret (render_template "login.html" [("form", TForm form)]) in
    if validate_on_submit ext form then
      let email := data form "email" in
      let password := data form "password" in
      user <- query (fun d => User_query_filter_by_email_first d email) ;;
      match user with
      | Some usr =>
          if check_password_hash ext (User.password usr) password then
            login_user (User.id usr) ;;
            ret (redirect (url_for "get_all_posts" []))
          else
            flash "Account does not exist. Please double check your credentials." ;;
            page
      | None =>
          flash "Account does not exist. Please double check your credentials." ;;
          page
      end
    else page.

(** Lines 137-141.  [login_required] is applied above [app.route], so the
    function the route registered is the bare one. *)
Definition logout : App Response :=
  logout_user ;;
  ret (redirect (url_for "get_all_posts" [])).

(** Lines 144-160. *)
Definition show_post (req : Request) (post_id : Z) : App Response :=
  requested_post <- query (fun d => BlogPost_query_get d post_id) ;;
  let comment_form := new_form CreateCommentForm req [] in
  let page :=
    all_comments <-
      query (fun d => Comment_query_filter_by_post_id_all d post_id) ;;
    ret (render_template "post.html"
           [("post", TPost requested_post);
            ("form", TForm comment_form);
            ("comments", TComments all_comments)]) in
  if validate_on_submit ext comment_form then
    u <- current_user ;;
    if negb (is_authenticated u) then
      flash "Please login before commenting" ;;
      ret (redirect (url_for "login" []))
    else
      uid <- current_user_id u ;;
      db_session_add (AddComment (data comment_form "comment") post_id uid) ;;
      db_session_commit ;;
      page
  else page.

(** Lines 163-170. *)
Definition about : App Response := ret (render_template "about.html" []).
Definition contact : App Response := ret (render_template "contact.html" []).

(** Lines 173-189, without the decorator. *)
Definition add_new_post (req : Request) : App Response :=
  let form := new_form CreatePostForm req [] in
  if validate_on_submit ext form then
    u <- current_user ;;
    uid <- current_user_id u ;;
    db_session_add
      (AddBlogPost (data form "title") (data form "subtitle")
                   (data form "body") (data form "img_url") uid (today req)) ;;
    db_session_commit ;;
    ret (redirect (url_for "get_all_posts" []))
  else ret (render_template "make-post.html" [("form", TForm form)]).

(** Lines 192-211, without the decorator.  The keyword arguments of the
    form are evaluated in the order they are written. *)
Definition edit_post (req : Request) (post_id : Z) : App Response :=
  post <- query (fun d => BlogPost_query_get d post_id) ;;
  title <- getattr_BlogPost post "title" ;;
  subtitle <- getattr_BlogPost post "subtitle" ;;
  img_url <- getattr_BlogPost post "img_url" ;;
  author <- getattr_BlogPost post "author" ;;
  body <- getattr_BlogPost post "body" ;;
  let edit_form :=
    new_form CreatePostForm req
             [("title", title); ("subtitle", subtitle); ("img_url", img_url);
              ("author", author); ("body", body)] in
  if validate_on_submit ext edit_form then
    setattr_BlogPost post "title" (data edit_form "title") ;;
    setattr_BlogPost post "subtitle" (data edit_form "subtitle") ;;
    setattr_BlogPost post "img_url" (data edit_form "img_url") ;;
    setattr_BlogPost post "body" (data edit_form "body") ;;
    db_session_commit ;;
    id <- getattr_BlogPost post "id" ;;
    ret (redirect (url_for "show_post" [("post_id", id)]))
  else ret (render_template "make-post.html" [("form", TForm edit_form)]).

(** Lines 214-220, without the decorator. *)
Definition delete_post (post_id : Z) : App Response :=
  post_to_delete <- query (fun d => BlogPost_query_get d post_id) ;;
  db_session_delete post_to_delete ;;
  db_session_commit ;;
  ret (redirect (url_for "get_all_posts" [])).

(** ** Routing *)

(** The function each [app.route] registered: the three post-mutation
    views are the ones wrapped by [admin_only]. *)
Definition view_function (r : Route) (req : Request) : App Response :=
  match r with
  | route_get_all_posts => get_all_posts
  | route_register => register req
  | route_login => login req
  | route_logout => logout
  | route_show_post post_id => show_post req post_id
  | route_about => about
  | route_contact => contact
  | route_add_new_post => admin_only (add_new_post req)
  | route_edit_post post_id => admin_only (edit_post req post_id)
  | route_delete_post post_id => admin_only (delete_post post_id)
  end.

(** Flask around a view: the view runs on a fresh unit of work; what it
    returns or raises becomes the response; the session cookie is saved and
    whatever was not committed is dropped. *)
Definition dispatch (view : App Response) (w : World) : Response * World :=
  match view (mkReqState (database w) (session w) []) with
  | (Return r, s) => (r, mkWorld (rs_db s) (rs_session s))
  | (Raise (HTTPException code), s) =>
      (error_page code, mkWorld (rs_db s) (rs_session s))
  | (Raise e, s) =>
      (internal_server_error e, mkWorld (rs_db s) (rs_session s))
  end.

Definition handle (r : Route) (req : Request) (w : World) : Response * World :=
  dispatch (view_function r req) w.

End Views.

(** ** Requests in sequence, and observations on the store *)

(** The user a world's session belongs to; [None] when it is anonymous. *)
Definition world_user (w : World) : option User.t :=
  user_of_session (database w) (session w).

(** One client sending requests one after the other. *)
Fixpoint run (ext : Extern) (reqs : list (Route * Request)) (w : World) : World :=
  match reqs with
  | [] => w
  | (r, req) :: rest => run ext rest (snd (handle ext r req w))
  end.

Definition empty_world : World := mkWorld empty_db anonymous_session.

(** How many stored posts carry title [t]. *)
Definition count_title (d : Database) (t : string) : nat :=
  List.length
    (filter (fun p => String.eqb (BlogPost.title p) t) (blog_posts_table d)).

(** What the [ForeignKey] clauses of lines 47, 66 and 68 declare: a foreign
    key names exactly one row of the table it points to. *)
Definition refers_to_one (ids : list Z) (fk : option Z) : bool :=
  match fk with
  | Some i => Nat.eqb (List.length (filter (fun j => j =? i) ids)) 1
  | None => false
  end.

Definition comment_refs_ok (d : Database) (c : Comment.t) : bool :=
  refers_to_one (map User.id (user_table d)) (Comment.user_id c)
  && refers_to_one (map BlogPost.id (blog_posts_table d)) (Comment.post_id c).

Definition post_refs_ok (d : Database) (p : BlogPost.t) : bool :=
  refers_to_one (map User.id (user_table d)) (BlogPost.user_id p).

Definition referential_integrity (d : Database) : bool :=
  forallb (comment_refs_ok d) (comment_table d)
  && forallb (post_refs_ok d) (blog_posts_table d).

(** ** A small instance of the collaborators, to run the model *)

Definition required_fields (cls : FormClass) : list string :=
  match cls with
  | CreatePostForm => ["title"; "subtitle"; "img_url"; "body"]
  | RegisterUserForm => ["email"; "password"; "name"]
  | LoginUserForm => ["email"; "password"]
  | CreateCommentForm => ["comment"]
  end.

(** Every field of the form is present and not empty; a hash is the password
    followed by the salt. *)
Definition toy_ext : Extern :=
  mkExtern
    (fun cls fs =>
       forallb (fun k => match lookup k fs with
                         | Some v => negb (String.eqb v "")
                         | None => false
                         end) (required_fields cls))
    (fun salt pw => pw ++ "$" ++ salt)%string
    (fun h pw => String.prefix (pw ++ "$")%string h).

Definition get_request : Request := mkRequest GET [] "April 05, 2024" "s0".

Definition post_request (fs : list (string * string)) : Request :=
  mkRequest POST fs "April 05, 2024" "s0".

Definition register_ada : Request :=
  post_request [("name", "Ada"); ("email", "ada@example.org"); ("password", "pw1")].

Definition register_bob : Request :=
  post_request [("name", "Bob"); ("email", "bob@example.org"); ("password", "pw2")].


Definition new_post_T : Request :=
  post_request [("title", "T"); ("subtitle", "S"); ("body", "B"); ("img_url", "U")].

Definition edit_post_T2 : Request :=
  post_request [("title", "T2"); ("subtitle", "S2"); ("body", "B2"); ("img_url", "U2")].

Definition comment_hi : Request := post_request [("comment", "hi")].

(** Ada registered first, so she is user 1 and her session is the admin's. *)
Definition ada_world : World :=
  run toy_ext [(route_register, register_ada)] empty_world.

(** Ada has logged out, Bob has registered: the session is user 2's. *)
Definition bob_world : World :=
  run toy_ext [(route_logout, get_request); (route_register, register_bob)]
      ada_world.

(** Ada has published the post titled T. *)
Definition ada_world_with_post : World :=
  run toy_ext [(route_add_new_post, new_post_T)] ada_world.

(** Bob has logged out again: two users are stored and nobody is logged in. *)
Definition visitor_world : World :=
  run toy_ext [(route_logout, get_request)] bob_world.


(** A registration with Ada's email that leaves the password out, so that
    [toy_ext] does not validate it. *)
Definition register_ada_no_password : Request :=
  post_request [("name", "Ada"); ("email", "ada@example.org"); ("password", "")].

(** What one request can do to the database: nothing, or one of the four
    statements the views commit.  An inserted post or comment carries the
    identifier of the user the session belongs to. *)
Inductive db_step (w : World) : Database -> Prop :=
| db_same : db_step w (database w)
| db_add_user e n pw :
    db_step w (mkDatabase
                 (user_table (database w)
                    ++ [User.mk (next_rowid (map User.id (user_table (database w))))
                                e n pw])
                 (blog_posts_table (database w))
                 (comment_table (database w)))
| db_add_post u t st dt b img :
    world_user w = Some u ->
    db_step w (mkDatabase
                 (user_table (database w))
                 (blog_posts_table (database w)
                    ++ [BlogPost.mk
                          (next_rowid (map BlogPost.id (blog_posts_table (database w))))
                          t st dt b img (Some (User.id u))])
                 (comment_table (database w)))
| db_add_comment u c pid :
    world_user w = Some u ->
    db_step w (mkDatabase
                 (user_table (database w))
                 (blog_posts_table (database w))
                 (comment_table (database w)
                    ++ [Comment.mk
                          (next_rowid (map Comment.id (comment_table (database w))))
                          c (Some (User.id u)) (Some pid)]))
| db_delete_post i :
    db_step w (mkDatabase
                 (user_table (database w))
                 (filter (fun p => negb (BlogPost.id p =? i))
                         (blog_posts_table (database w)))
                 (map (nullify_post i) (comment_table (database w)))).

(** The part of the foreign keys that points at users: user keys are
    distinct, and the user of every comment and of every post is stored. *)
Definition user_refs (d : Database) : Prop :=
  NoDup (map User.id (user_table d))
  /\ (forall c, In c (comment_table d) ->
                exists i, Comment.user_id c = Some i
                          /\ In i (map User.id (user_table d)))
  /\ (forall p, In p (blog_posts_table d) ->
                exists i, BlogPost.user_id p = Some i
                          /\ In i (map User.id (user_table d))).

(** The routes behind [admin_only]. *)
Definition post_mutation_route (r : Route) : bool :=
  match r with
  | route_add_new_post | route_edit_post _ | route_delete_post _ => true
  | _ => false
  end.

(** A response that is a page or a redirect, as opposed to an error. *)
Definition completes (r : Response) : bool :=
  match r with
  | render_template _ _ | redirect _ => true
  | error_page _ | internal_server_error _ => false
  end.

(** What one request writes, with the checks the storage layer made: an
    inserted email or title was not in its table. *)
Inductive db_write (d : Database) : Database -> Prop :=
| write_nothing : db_write d d
| write_user e n pw :
    email_taken (user_table d) e = false ->
    db_write d (mkDatabase
                  (user_table d
                     ++ [User.mk (next_rowid (map User.id (user_table d))) e n pw])
                  (blog_posts_table d) (comment_table d))
| write_post t st dt b img uid :
    title_taken (blog_posts_table d) t = false ->
    db_write d (mkDatabase
                  (user_table d)
                  (blog_posts_table d
                     ++ [BlogPost.mk (next_rowid (map BlogPost.id (blog_posts_table d)))
                                     t st dt b img (Some uid)])
                  (comment_table d))
| write_comment c uid pid :
    db_write d (mkDatabase
                  (user_table d) (blog_posts_table d)
                  (comment_table d
                     ++ [Comment.mk (next_rowid (map Comment.id (comment_table d)))
                                    c (Some uid) (Some pid)]))
| write_delete i :
    db_write d (mkDatabase
                  (user_table d)
                  (filter (fun p => negb (BlogPost.id p =? i)) (blog_posts_table d))
                  (map (nullify_post i) (comment_table d))).

(** Primary keys, emails and titles each occur once in their table: the
    [primary_key] and [unique] columns of lines 41-64. *)
Definition store_unique (d : Database) : Prop :=
  NoDup (map User.id (user_table d))
  /\ NoDup (map BlogPost.id (blog_posts_table d))
  /\ NoDup (map Comment.id (comment_table d))
  /\ NoDup (map User.email (user_table d))
  /\ NoDup (map BlogPost.title (blog_posts_table d)).

(** The three views that call [login_user] or [logout_user]. *)
Definition session_route (r : Route) : bool :=
  match r with
  | route_register | route_login | route_logout => true
  | _ => false
  end.

(** The same world with nobody logged in. *)
Definition anonymise (w : World) : World :=
  mkWorld (database w) (mkSession None (_flashes (session w))).

(** The admin: a logged-in user whose identifier is 1. *)
Definition is_admin_world (w : World) : bool :=
  match world_user w with
  | Some u => User.id u =? 1
  | None => false
  end.

(** Bob's session, with Ada's post stored. *)
Definition bob_world_with_post : World :=
  run toy_ext [(route_logout, get_request); (route_register, register_bob)]
      ada_world_with_post.

Definition login_ada : Request :=
  post_request [("email", "ada@example.org"); ("password", "pw1")].


(** A session cookie naming user 5 on a blog where only Ada is stored. *)
Definition stale_world : World :=
  mkWorld (database ada_world_with_post) (mkSession (Some 5) []).

(** * Properties *)

(** ** The monad and the session *)

Ltac unfold_app :=
  unfold bind, ret, raise, abort, query, current_user, current_user_id,
    get_session, put_session, get_db in *.

Lemma world_eta (w : World) : mkWorld (database w) (session w) = w.
Proof. destruct w; reflexivity. Qed.


Lemma bind_return {A B} {m : App A} (k : A -> App B) {s a s'} :
  m s = (Return a, s') -> bind m k s = k a s'.
Proof. intros H; unfold bind; rewrite H; reflexivity. Qed.

Lemma bind_raise {A B} {m : App A} (k : A -> App B) {s e s'} :
  m s = (Raise e, s') -> bind m k s = (Raise e, s').
Proof. intros H; unfold bind; rewrite H; reflexivity. Qed.

Lemma current_user_run s :
  current_user s = (Return (user_of_session (rs_db s) (rs_session s)), s).
Proof. reflexivity. Qed.

(** ** The storage layer *)

Lemma fold_max_bounds (i : Z) (rest : list Z) :
  i <= fold_right Z.max i rest
  /\ forall j, In j rest -> j <= fold_right Z.max i rest.
Proof.
  induction rest as [|k rest [IHi IHr]]; cbn [fold_right In].
  - split; [lia | intros j []].
  - split; [lia | ].
    intros j [<- | Hj]; [lia | ]. specialize (IHr j Hj). lia.
Qed.

Lemma next_rowid_above (ids : list Z) (j : Z) :
  In j ids -> j < next_rowid ids.
Proof.
  destruct ids as [|i rest]; [intros [] | ].
  cbn [next_rowid In]. destruct (fold_max_bounds i rest) as [Hi Hr].
  intros [<- | Hj]; [lia | ]. specialize (Hr j Hj). lia.
Qed.

Lemma next_rowid_fresh (ids : list Z) : ~ In (next_rowid ids) ids.
Proof. intros H. apply next_rowid_above in H. lia. Qed.

Lemma find_snoc {A} (f : A -> bool) (l : list A) (x : A) :
  find f (l ++ [x])
  = match find f l with
    | Some y => Some y
    | None => if f x then Some x else None
    end.
Proof.
  induction l as [|a l IH]; simpl; [reflexivity | ].
  destruct (f a); [reflexivity | exact IH].
Qed.

Lemma find_key_absent {A} (key : A -> Z) (l : list A) (k : Z) :
  ~ In k (map key l) -> find (fun a => key a =? k) l = None.
Proof.
  induction l as [|a l IH]; simpl; [reflexivity | ].
  intros H. destruct (Z.eqb_spec (key a) k) as [E | E].
  - exfalso. apply H. now left.
  - apply IH. intros Hin. apply H. now right.
Qed.

(** The row a post insertion appends is the one [query.get] finds under the
    new key. *)
Lemma query_get_inserted (d : Database) (p : BlogPost.t) :
  BlogPost.id p = next_rowid (map BlogPost.id (blog_posts_table d)) ->
  BlogPost_query_get
    (mkDatabase (user_table d) (blog_posts_table d ++ [p]) (comment_table d))
    (BlogPost.id p) = Some p.
Proof.
  intros Hid. unfold BlogPost_query_get. simpl. rewrite find_snoc.
  rewrite find_key_absent.
  - now rewrite Z.eqb_refl.
  - rewrite Hid. apply next_rowid_fresh.
Qed.

Lemma filter_by_email_first_some (d : Database) (e : string) :
  (exists u, In u (user_table d) /\ User.email u = e) ->
  exists u', User_query_filter_by_email_first d e = Some u'.
Proof.
  intros (u & Hin & He). unfold User_query_filter_by_email_first.
  destruct (find _ (user_table d)) as [u'|] eqn:F; [now exists u' | ].
  apply (find_none _ _ F) in Hin. rewrite He, String.eqb_refl in Hin.
  discriminate.
Qed.

Lemma filter_by_email_first_none (d : Database) (e : string) :
  (forall u, In u (user_table d) -> User.email u <> e) ->
  User_query_filter_by_email_first d e = None.
Proof.
  intros H. unfold User_query_filter_by_email_first.
  destruct (find _ (user_table d)) as [u'|] eqn:F; [ | reflexivity].
  apply find_some in F. destruct F as [Hin He].
  apply String.eqb_eq in He. now apply H in Hin.
Qed.

(** ** The guard *)

Section Guard.

Variable ext : Extern.

(** A session that is not the admin's never reaches the wrapped view:
    whatever [fn] is, the outcome is the 403 and the state is untouched. *)
Lemma admin_only_rejects {A} (fn : App A) (s : ReqState) :
  (forall u, user_of_session (rs_db s) (rs_session s) = Some u -> User.id u <> 1) ->
  admin_only fn s = (Raise (HTTPException 403), s).
Proof.
  intros Hu. unfold admin_only.
  rewrite (bind_return _ (current_user_run s)).
  destruct (user_of_session (rs_db s) (rs_session s)) as [u|] eqn:E; simpl.
  - unfold_app; simpl.
    destruct (Z.eqb_spec (User.id u) 1) as [H1|H1]; [|reflexivity].
    exfalso; exact (Hu u eq_refl H1).
  - reflexivity.
Qed.

(** The admin's session runs the wrapped view as it is. *)
Lemma admin_only_admits {A} (fn : App A) (s : ReqState) u :
  user_of_session (rs_db s) (rs_session s) = Some u -> User.id u = 1 ->
  admin_only fn s = fn s.
Proof.
  intros Hu H1. unfold admin_only.
  rewrite (bind_return _ (current_user_run s)), Hu; simpl.
  unfold_app; simpl. rewrite H1; reflexivity.
Qed.

End Guard.

(** C1.  A request to the new-post, edit-post or delete-post route from a
    session that is anonymous, or that belongs to a user whose identifier is
    not 1, is answered with status 403 and leaves the stored users, posts and
    comments (and the session) as they were; the guard answers before the
    wrapped view runs, so this holds of any view put behind it. *)
Theorem admin_only_forbidden
        (ext : Extern) (r : Route) (req : Request) (w : World) :
  post_mutation_route r = true ->
  (world_user w = None \/ exists u, world_user w = Some u /\ User.id u <> 1) ->
  status_code (fst (handle ext r req w)) = 403
  /\ database (snd (handle ext r req w)) = database w
  /\ snd (handle ext r req w) = w
  /\ forall fn : App Response, dispatch (admin_only fn) w = (error_page 403, w).
Proof.
  intros Hr Hw.
  assert (G : forall fn : App Response,
             dispatch (admin_only fn) w = (error_page 403, w)).
  { intros fn. unfold dispatch. rewrite admin_only_rejects; simpl.
    - now rewrite world_eta.
    - intros u Hu. fold (world_user w) in Hu.
      destruct Hw as [Hw | (u' & Hw & Hid)]; congruence. }
  destruct r; try discriminate Hr; unfold handle, view_function;
    rewrite G; simpl; auto.
Qed.

(** Bob, who is user 2, asks for a deletion; and an anonymous client posts
    to the new-post route. *)
Lemma admin_only_forbidden_witness :
  (post_mutation_route (route_delete_post 1) = true
   /\ (exists u, world_user bob_world = Some u /\ User.id u <> 1)
   /\ status_code (fst (handle toy_ext (route_delete_post 1) get_request bob_world))
      = 403
   /\ snd (handle toy_ext (route_delete_post 1) get_request bob_world) = bob_world)
  /\ (world_user empty_world = None
      /\ snd (handle toy_ext route_add_new_post new_post_T empty_world)
         = empty_world).
Proof.
  assert (Hbob : exists u, world_user bob_world = Some u /\ User.id u <> 1).
  { eexists. split; [reflexivity | simpl; lia]. }
  split.
  - split; [reflexivity | split; [exact Hbob | ]].
    pose proof (admin_only_forbidden toy_ext (route_delete_post 1) get_request
                  bob_world eq_refl (or_intror Hbob)) as H.
    split; apply H.
  - split; [reflexivity | ].
    apply (admin_only_forbidden toy_ext route_add_new_post new_post_T
             empty_world eq_refl (or_introl eq_refl)).
Defined.

(** ** Logout *)

Lemma logout_run (w : World) :
  dispatch logout w
  = (redirect (url_for "get_all_posts" []),
     mkWorld (database w) (mkSession None (_flashes (session w)))).
Proof. reflexivity. Qed.

(** C7.  Whatever the session is at the start, the first logout leaves it
    anonymous and so does the second, and both answer with a redirect to the
    post listing. *)
Theorem logout_twice (ext : Extern) (req1 req2 : Request) (w : World) :
  let (r1, w1) := handle ext route_logout req1 w in
  let (r2, w2) := handle ext route_logout req2 w1 in
  r1 = redirect (url_for "get_all_posts" [])
  /\ r2 = redirect (url_for "get_all_posts" [])
  /\ _user_id (session w1) = None /\ world_user w1 = None
  /\ _user_id (session w2) = None /\ world_user w2 = None
  /\ w2 = w1.
Proof.
  unfold handle, view_function. rewrite logout_run.
  rewrite logout_run. simpl. repeat split; reflexivity.
Qed.

(** ** Registration with an email that is already stored *)

(** C3, as stated, fails.  Bob is logged in and submits the registration form
    with Ada's email, which is stored: he is sent to the post listing, not to
    the login page, and no message is flashed.  And a visitor who submits
    Ada's email in a form that does not validate gets the registration form
    again, with no message either. *)
Lemma register_existing_email_cex :
  (validate_on_submit toy_ext (new_form RegisterUserForm register_ada []) = true
   /\ (exists u, In u (user_table (database bob_world))
                 /\ User.email u = data (new_form RegisterUserForm register_ada [])
                                        "email")
   /\ handle toy_ext route_register register_ada bob_world
      = (redirect (url_for "get_all_posts" []), bob_world)
   /\ fst (handle toy_ext route_register register_ada bob_world)
      <> redirect (url_for "login" [])
   /\ _flashes (session (snd (handle toy_ext route_register register_ada bob_world)))
      = [])
  /\ ((exists u, In u (user_table (database visitor_world))
                 /\ User.email u
                    = data (new_form RegisterUserForm register_ada_no_password [])
                           "email")
      /\ handle toy_ext route_register register_ada_no_password visitor_world
         = (render_template "register.html"
              [("form", TForm (new_form RegisterUserForm register_ada_no_password []))],
            visitor_world)).
Proof.
  split.
  - split; [reflexivity | ].
    split; [eexists; split; [left; reflexivity | reflexivity] | ].
    split; [reflexivity | ].
    split; [vm_compute; discriminate | reflexivity].
  - split; [eexists; split; [left; reflexivity | reflexivity] | reflexivity].
Qed.

(** C3, amended.  A registration submission (a POST whose form validates)
    from a session that is not logged in, with the email of a stored user:
    the database is left as it was, so no user is created; the session keeps
    its [_user_id] and the messages it had; the response is a redirect to the
    login page, and the message that the email already exists is flashed. *)
Theorem register_existing_email (ext : Extern) (req : Request) (w : World) :
  world_user w = None ->
  validate_on_submit ext (new_form RegisterUserForm req []) = true ->
  (exists u, In u (user_table (database w))
             /\ User.email u = data (new_form RegisterUserForm req []) "email") ->
  handle ext route_register req w
  = (redirect (url_for "login" []),
     mkWorld (database w)
             (mkSession (_user_id (session w))
                        (_flashes (session w)
                           ++ ["That email already exists. Please log in instead."]))).
Proof.
  intros Hu Hv Hex.
  destruct (filter_by_email_first_some _ _ Hex) as (u' & Hq).
  unfold handle, view_function, dispatch, register.
  rewrite (bind_return _ (current_user_run _)). simpl.
  fold (world_user w). rewrite Hu. simpl. rewrite Hv.
  unfold query at 1. unfold bind at 1. simpl. rewrite Hq.
  reflexivity.
Qed.

(** Nobody is logged in, and Ada's email is submitted again. *)
Lemma register_existing_email_witness :
  world_user visitor_world = None
  /\ validate_on_submit toy_ext (new_form RegisterUserForm register_ada []) = true
  /\ handle toy_ext route_register register_ada visitor_world
     = (redirect (url_for "login" []),
        mkWorld (database visitor_world)
                (mkSession None
                           ["That email already exists. Please log in instead."])).
Proof.
  split; [reflexivity | split; [reflexivity | ]].
  apply (register_existing_email toy_ext register_ada visitor_world);
    [reflexivity | reflexivity | ].
  eexists; split; [left; reflexivity | reflexivity].
Defined.

(** ** Login with wrong credentials *)




(** ** Creating a post and reading it back *)

Section Create.

Variable ext : Extern.

(** A validated submission by the admin with a title not yet in storage is
    stored under the next key, stamped with the day and the admin's id. *)
Lemma add_new_post_stores req (w : World) u :
  world_user w = Some u -> User.id u = 1 ->
  validate_on_submit ext (new_form CreatePostForm req []) = true ->
  title_taken (blog_posts_table (database w))
              (data (new_form CreatePostForm req []) "title") = false ->
  let form := new_form CreatePostForm req [] in
  let d := database w in
  handle ext route_add_new_post req w
  = (redirect (url_for "get_all_posts" []),
     mkWorld
       (mkDatabase
          (user_table d)
          (blog_posts_table d
             ++ [BlogPost.mk (next_rowid (map BlogPost.id (blog_posts_table d)))
                             (data form "title") (data form "subtitle")
                             (today req) (data form "body")
                             (data form "img_url") (Some 1)])
          (comment_table d))
       (session w)).
Proof.
  intros Hu H1 Hv Ht form d. unfold handle, view_function, dispatch.
  rewrite (admin_only_admits _ (mkReqState (database w) (session w) []) u Hu H1).
  unfold add_new_post. rewrite Hv.
  rewrite (bind_return _ (current_user_run _)). simpl.
  fold (world_user w). rewrite Hu.
  unfold_app. unfold db_session_add, db_session_commit. simpl.
  rewrite Ht. simpl. rewrite H1. reflexivity.
Qed.

(** The listing shows every stored post and changes nothing. *)
Lemma get_all_posts_run req (w : World) :
  handle ext route_get_all_posts req w
  = (render_template "index.html"
       [("all_posts", TPosts (blog_posts_table (database w)))], w).
Proof.
  unfold handle, view_function, dispatch, get_all_posts, query, bind, ret.
  simpl. now rewrite world_eta.
Qed.

(** A GET for the page of a stored post shows that post and its comments. *)
Lemma show_post_get req post_id (w : World) p :
  BlogPost_query_get (database w) post_id = Some p ->
  method req = GET ->
  handle ext (route_show_post post_id) req w
  = (render_template "post.html"
       [("post", TPost (Some p));
        ("form", TForm (new_form CreateCommentForm req []));
        ("comments",
         TComments (Comment_query_filter_by_post_id_all (database w) post_id))],
     w).
Proof.
  intros Hp Hm. unfold handle, view_function, dispatch, show_post.
  unfold query at 1. unfold bind at 1. simpl. rewrite Hp.
  unfold validate_on_submit, new_form. rewrite Hm. simpl.
  now rewrite world_eta.
Qed.

End Create.

(** C6.  The admin submits a post with title T, subtitle S, body B and image
    U, the title not being in storage yet.  The post is created; the listing
    fetched next holds an entry with a new identifier and title T; and the
    page of that identifier shows a post with subtitle S and body B. *)
Theorem add_new_post_round_trip
        (ext : Extern) (req : Request) (w : World) (u : User.t)
        (T S B U : string) :
  let form := new_form CreatePostForm req [] in
  world_user w = Some u -> User.id u = 1 ->
  validate_on_submit ext form = true ->
  data form "title" = T -> data form "subtitle" = S ->
  data form "body" = B -> data form "img_url" = U ->
  title_taken (blog_posts_table (database w)) T = false ->
  exists p : BlogPost.t,
    BlogPost.title p = T /\ BlogPost.subtitle p = S /\ BlogPost.body p = B
    /\ BlogPost.img_url p = U
    /\ ~ In (BlogPost.id p) (map BlogPost.id (blog_posts_table (database w)))
    /\ forall (req2 req3 : Request),
        method req3 = GET ->
        let (r1, w1) := handle ext route_add_new_post req w in
        let (r2, w2) := handle ext route_get_all_posts req2 w1 in
        let (r3, w3) := handle ext (route_show_post (BlogPost.id p)) req3 w2 in
        r1 = redirect (url_for "get_all_posts" [])
        /\ (exists posts,
               r2 = render_template "index.html" [("all_posts", TPosts posts)]
               /\ In p posts)
        /\ (exists form3 comments,
               r3 = render_template "post.html"
                      [("post", TPost (Some p)); ("form", form3);
                       ("comments", comments)]).
Proof.
  intros form Hu H1 Hv HT HS HB HU Ht.
  set (d := database w).
  set (p := BlogPost.mk (next_rowid (map BlogPost.id (blog_posts_table d)))
                        T S (today req) B U (Some 1)).
  exists p. repeat (split; [reflexivity | ]).
  split; [apply next_rowid_fresh | ].
  intros req2 req3 Hget.
  rewrite (add_new_post_stores ext req w u Hu H1 Hv)
    by (fold form; rewrite HT; exact Ht).
  fold form d. rewrite HT, HS, HB, HU. fold p.
  rewrite get_all_posts_run.
  rewrite (show_post_get ext req3 (BlogPost.id p) _ p);
    [ | apply (query_get_inserted d p); reflexivity | exact Hget].
  split; [reflexivity | ]. split.
  - eexists. split; [reflexivity | ]. simpl. apply in_or_app. right. now left.
  - do 2 eexists. reflexivity.
Qed.

(** Ada publishes the post titled T on an empty blog and reads it back. *)
Lemma add_new_post_round_trip_witness :
  world_user ada_world = Some (User.mk 1 "ada@example.org" "Ada" "pw1$s0")
  /\ validate_on_submit toy_ext (new_form CreatePostForm new_post_T []) = true
  /\ title_taken (blog_posts_table (database ada_world)) "T" = false
  /\ exists p : BlogPost.t,
      BlogPost.title p = "T" /\ BlogPost.subtitle p = "S" /\ BlogPost.body p = "B"
      /\ BlogPost.img_url p = "U"
      /\ ~ In (BlogPost.id p) (map BlogPost.id (blog_posts_table (database ada_world)))
      /\ forall (req2 req3 : Request),
          method req3 = GET ->
          let (r1, w1) := handle toy_ext route_add_new_post new_post_T ada_world in
          let (r2, w2) := handle toy_ext route_get_all_posts req2 w1 in
          let (r3, w3) := handle toy_ext (route_show_post (BlogPost.id p)) req3 w2 in
          r1 = redirect (url_for "get_all_posts" [])
          /\ (exists posts,
                 r2 = render_template "index.html" [("all_posts", TPosts posts)]
                 /\ In p posts)
          /\ (exists form3 comments,
                 r3 = render_template "post.html"
                        [("post", TPost (Some p)); ("form", form3);
                         ("comments", comments)]).
Proof.
  split; [reflexivity | split; [reflexivity | split; [reflexivity | ]]].
  apply (add_new_post_round_trip toy_ext new_post_T ada_world
           (User.mk 1 "ada@example.org" "Ada" "pw1$s0") "T" "S" "B" "U");
    reflexivity.
Defined.

(** ** Two posts with one title *)

Section DuplicateTitle.

Variable ext : Extern.

(** The unique constraint refuses the insert, the commit raises, and
    [add_new_post] has no handler for it. *)
Lemma add_new_post_title_taken req (w : World) u :
  world_user w = Some u -> User.id u = 1 ->
  validate_on_submit ext (new_form CreatePostForm req []) = true ->
  title_taken (blog_posts_table (database w))
              (data (new_form CreatePostForm req []) "title") = true ->
  handle ext route_add_new_post req w
  = (internal_server_error (IntegrityError "blog_posts.title"), w).
Proof.
  intros Hu H1 Hv Ht. unfold handle, view_function, dispatch.
  rewrite (admin_only_admits _ (mkReqState (database w) (session w) []) u Hu H1).
  unfold add_new_post. rewrite Hv.
  rewrite (bind_return _ (current_user_run _)). simpl.
  fold (world_user w). rewrite Hu.
  unfold_app. unfold db_session_add, db_session_commit. simpl.
  rewrite Ht. simpl. now rewrite world_eta.
Qed.

End DuplicateTitle.

(** C5.  The admin submits the post titled T twice.  The first submission is
    stored; the second ends in the storage layer's [IntegrityError], answered
    with status 500 and neither a page nor a redirect; one post titled T is in
    storage afterwards. *)
Theorem add_new_post_twice_leaks_integrity_error :
  let (r1, w1) := handle toy_ext route_add_new_post new_post_T ada_world in
  let (r2, w2) := handle toy_ext route_add_new_post new_post_T w1 in
  r1 = redirect (url_for "get_all_posts" [])
  /\ r2 = internal_server_error (IntegrityError "blog_posts.title")
  /\ status_code r2 = 500
  /\ completes r2 = false
  /\ count_title (database w2) "T" = 1%nat.
Proof.
  vm_compute. repeat split.
Qed.

(** ** The edit route *)

Section Edit.

Variable ext : Extern.

(** On a fetched row the form is never built: its fourth keyword argument
    reads [post.author]. *)
Lemma edit_post_existing req post_id p (s : ReqState) :
  BlogPost_query_get (rs_db s) post_id = Some p ->
  edit_post ext req post_id s = (Raise (AttributeError "BlogPost" "author"), s).
Proof.
  intros Hp. unfold edit_post, query, bind. rewrite Hp. reflexivity.
Qed.

(** With no such row the first keyword argument already faults. *)
Lemma edit_post_missing req post_id (s : ReqState) :
  BlogPost_query_get (rs_db s) post_id = None ->
  edit_post ext req post_id s = (Raise (AttributeError "NoneType" "title"), s).
Proof.
  intros Hp. unfold edit_post, query, bind. rewrite Hp. reflexivity.
Qed.

(** So the view raises on every input, and the state it leaves is the one
    it found. *)
Lemma edit_post_raises req post_id (s : ReqState) :
  exists ty attr,
    edit_post ext req post_id s = (Raise (AttributeError ty attr), s).
Proof.
  destruct (BlogPost_query_get (rs_db s) post_id) as [p|] eqn:Hp.
  - exists "BlogPost", "author". now apply edit_post_existing with p.
  - exists "NoneType", "title". now apply edit_post_missing.
Qed.

Lemma edit_route_never_completes req post_id (w : World) :
  completes (fst (handle ext (route_edit_post post_id) req w)) = false
  /\ snd (handle ext (route_edit_post post_id) req w) = w.
Proof.
  unfold handle, view_function, dispatch, admin_only.
  rewrite (bind_return _ (current_user_run _)). simpl.
  fold (world_user w).
  destruct (edit_post_raises req post_id (mkReqState (database w) (session w) []))
    as (ty & attr & He).
  destruct (world_user w) as [u|]; simpl; unfold_app; simpl.
  - destruct (User.id u =? 1); simpl.
    + rewrite He. simpl. now rewrite world_eta.
    + now rewrite world_eta.
  - now rewrite world_eta.
Qed.

End Edit.

(** C10.  The edit view builds its form from [post.author], an attribute that
    [BlogPost] does not have.  For the admin and an existing post the request
    therefore ends in that [AttributeError], before the form is rendered and
    with users, posts, comments and session as they were; and no request to
    the edit route, from anyone and for any id, ever ends in a page or a
    redirect. *)
Theorem edit_post_author_fault
        (ext : Extern) (req : Request) (post_id : Z) (w : World)
        (u : User.t) (p : BlogPost.t) :
  world_user w = Some u -> User.id u = 1 ->
  BlogPost_query_get (database w) post_id = Some p ->
  handle ext (route_edit_post post_id) req w
  = (internal_server_error (AttributeError "BlogPost" "author"), w)
  /\ forall req' post_id' w',
      completes (fst (handle ext (route_edit_post post_id') req' w')) = false
      /\ snd (handle ext (route_edit_post post_id') req' w') = w'.
Proof.
  intros Hu H1 Hp. split.
  - unfold handle, view_function, dispatch.
    rewrite (admin_only_admits _ (mkReqState (database w) (session w) []) u Hu H1).
    rewrite (edit_post_existing ext req post_id p) by exact Hp.
    simpl. now rewrite world_eta.
  - intros. apply edit_route_never_completes.
Qed.

(** Ada, the admin, submits an edit of her post 1. *)
Lemma edit_post_author_fault_witness :
  (exists u p, world_user ada_world_with_post = Some u /\ User.id u = 1
               /\ BlogPost_query_get (database ada_world_with_post) 1 = Some p)
  /\ handle toy_ext (route_edit_post 1) edit_post_T2 ada_world_with_post
     = (internal_server_error (AttributeError "BlogPost" "author"),
        ada_world_with_post).
Proof.
  split.
  - do 2 eexists. repeat split; reflexivity.
  - eapply (edit_post_author_fault toy_ext edit_post_T2 1 ada_world_with_post);
      reflexivity.
Defined.

(** C8.  The admin posts new title, subtitle, image and body for her existing
    post 1.  The request ends in the [AttributeError] on [author]: it is not
    the redirect to the post's page, and the post still reads T, S, U, B. *)
Theorem edit_post_overwrites_nothing :
  let (r, w) := handle toy_ext (route_edit_post 1) edit_post_T2 ada_world_with_post in
  validate_on_submit toy_ext (new_form CreatePostForm edit_post_T2 []) = true
  /\ r = internal_server_error (AttributeError "BlogPost" "author")
  /\ r <> redirect (url_for "show_post" [("post_id", VInt 1)])
  /\ BlogPost_query_get (database w) 1
     = Some (BlogPost.mk 1 "T" "S" "April 05, 2024" "B" "U" (Some 1)).
Proof.
  vm_compute. repeat split; discriminate.
Qed.

(** ** A post id that matches no post *)

Section MissingPost.

Variable ext : Extern.

(** A GET for the page of a missing post renders the page with no post. *)
Lemma show_post_missing_get req post_id (w : World) :
  BlogPost_query_get (database w) post_id = None ->
  method req = GET ->
  handle ext (route_show_post post_id) req w
  = (render_template "post.html"
       [("post", TPost None);
        ("form", TForm (new_form CreateCommentForm req []));
        ("comments",
         TComments (Comment_query_filter_by_post_id_all (database w) post_id))],
     w).
Proof.
  intros Hp Hm. unfold handle, view_function, dispatch, show_post.
  unfold query at 1. unfold bind at 1. simpl. rewrite Hp.
  unfold validate_on_submit, new_form. rewrite Hm. simpl.
  now rewrite world_eta.
Qed.

(** The admin deleting a missing post hands [None] to [db.session.delete]. *)
Lemma delete_post_missing req post_id (w : World) u :
  world_user w = Some u -> User.id u = 1 ->
  BlogPost_query_get (database w) post_id = None ->
  handle ext (route_delete_post post_id) req w
  = (internal_server_error UnmappedInstanceError, w).
Proof.
  intros Hu H1 Hp. unfold handle, view_function, dispatch.
  rewrite (admin_only_admits _ (mkReqState (database w) (session w) []) u Hu H1).
  unfold delete_post, query, bind. simpl. rewrite Hp. simpl.
  now rewrite world_eta.
Qed.

(** The admin editing a missing post reads [title] of [None]. *)
Lemma edit_post_missing_admin req post_id (w : World) u :
  world_user w = Some u -> User.id u = 1 ->
  BlogPost_query_get (database w) post_id = None ->
  handle ext (route_edit_post post_id) req w
  = (internal_server_error (AttributeError "NoneType" "title"), w).
Proof.
  intros Hu H1 Hp. unfold handle, view_function, dispatch.
  rewrite (admin_only_admits _ (mkReqState (database w) (session w) []) u Hu H1).
  rewrite edit_post_missing by exact Hp. simpl. now rewrite world_eta.
Qed.

End MissingPost.

(** C2.  Post 7 does not exist.  Its page is rendered with status 200 and no
    post; the admin's edit and delete requests for it end in an unhandled
    exception, status 500.  None of the three is a 404. *)
Theorem missing_post_is_not_404 :
  BlogPost_query_get (database ada_world_with_post) 7 = None
  /\ fst (handle toy_ext (route_show_post 7) get_request ada_world_with_post)
     = render_template "post.html"
         [("post", TPost None);
          ("form", TForm (new_form CreateCommentForm get_request []));
          ("comments", TComments [])]
  /\ fst (handle toy_ext (route_edit_post 7) get_request ada_world_with_post)
     = internal_server_error (AttributeError "NoneType" "title")
  /\ fst (handle toy_ext (route_delete_post 7) get_request ada_world_with_post)
     = internal_server_error UnmappedInstanceError
  /\ forall r, In r [route_show_post 7; route_edit_post 7; route_delete_post 7] ->
               status_code (fst (handle toy_ext r get_request ada_world_with_post))
               <> 404.
Proof.
  split; [reflexivity | ].
  split; [now rewrite show_post_missing_get | ].
  split; [now erewrite edit_post_missing_admin | ].
  split; [now erewrite delete_post_missing | ].
  intros r [<- | [<- | [<- | []]]]; vm_compute; discriminate.
Qed.

(** ** Foreign keys *)

Section Steps.

Variable ext : Extern.

Ltac break_match :=
  match goal with
  | |- context [match ?x with _ => _ end] =>
      match type of x with
      | bool => destruct x eqn:?
      | option _ => destruct x eqn:?
      | Method => destruct x eqn:?
      | list _ => destruct x eqn:?
      end
  end.

Ltac run_view :=
  unfold_app;
  unfold db_session_add, db_session_delete, db_session_commit, login_user,
    logout_user, flash, getattr_BlogPost, setattr_BlogPost;
  unfold_app; simpl.

(** Every request moves the database by a [db_step]: the edit route never
    gets as far as a commit, and each other view commits at most one
    statement. *)
Lemma handle_db_step (r : Route) (req : Request) (w : World) :
  db_step w (database (snd (handle ext r req w))).
Proof.
  destruct r;
    try (destruct (edit_route_never_completes ext req post_id w) as [_ E];
         rewrite E; apply db_same);
    unfold handle, view_function, dispatch, admin_only, register, login,
      logout, show_post, get_all_posts, about, contact, add_new_post, delete_post;
    run_view; fold (world_user w);
    destruct (world_user w) as [u|] eqn:Hu; simpl;
    repeat (break_match; simpl);
    first [ apply db_same | apply db_add_user
          | eapply db_add_post; eassumption
          | eapply db_add_comment; eassumption
          | apply db_delete_post ].
Qed.

End Steps.

Lemma world_user_stored (w : World) (u : User.t) :
  world_user w = Some u -> In (User.id u) (map User.id (user_table (database w))).
Proof.
  unfold world_user, user_of_session, load_user, User_query_get.
  destruct (_user_id (session w)) as [i|]; [ | discriminate].
  intros H. apply find_some in H. apply in_map. apply H.
Qed.

Lemma nullify_post_user_id (i : Z) (c : Comment.t) :
  Comment.user_id (nullify_post i c) = Comment.user_id c.
Proof.
  unfold nullify_post. destruct (Comment.post_id c) as [j|]; [ | reflexivity].
  destruct (j =? i); reflexivity.
Qed.

(** A step keeps the references to users intact: users are only ever added,
    under a new key, and whoever writes a post or a comment is stored. *)
Lemma db_step_user_refs (w : World) (d : Database) :
  user_refs (database w) -> db_step w d -> user_refs d.
Proof.
  intros (Hnd & Hc & Hp) Hstep.
  destruct Hstep as [ | e n pw | u t st dt b img Hu | u c pid Hu | i ];
    unfold user_refs; simpl.
  - auto.
  - split; [ | split].
    + rewrite map_app. apply NoDup_app; simpl; auto.
      * constructor; [intros [] | constructor].
      * intros a Ha [<- | []]. now apply next_rowid_fresh in Ha.
    + intros c Hin. destruct (Hc c Hin) as (i & Hi & Hin').
      exists i. split; [exact Hi | ]. rewrite map_app. apply in_or_app. now left.
    + intros p Hin. destruct (Hp p Hin) as (i & Hi & Hin').
      exists i. split; [exact Hi | ]. rewrite map_app. apply in_or_app. now left.
  - split; [exact Hnd | split; [exact Hc | ]].
    intros p Hin. apply in_app_or in Hin. destruct Hin as [Hin | [<- | []]].
    + now apply Hp.
    + exists (User.id u). split; [reflexivity | now apply world_user_stored].
  - split; [exact Hnd | split; [ | exact Hp]].
    intros c' Hin. apply in_app_or in Hin. destruct Hin as [Hin | [<- | []]].
    + now apply Hc.
    + exists (User.id u). split; [reflexivity | now apply world_user_stored].
  - split; [exact Hnd | split].
    + intros c Hin. apply in_map_iff in Hin. destruct Hin as (c0 & <- & Hin0).
      rewrite nullify_post_user_id. now apply Hc.
    + intros p Hin. apply filter_In in Hin. now apply Hp.
Qed.

(** So the references to users hold along every sequence of requests. *)
Lemma run_user_refs (ext : Extern) (reqs : list (Route * Request)) (w : World) :
  user_refs (database w) -> user_refs (database (run ext reqs w)).
Proof.
  revert w. induction reqs as [|[r req] reqs IH]; intros w Hw; simpl.
  - exact Hw.
  - apply IH. apply (db_step_user_refs w); [exact Hw | apply handle_db_step].
Qed.

Lemma count_key_one (ids : list Z) (i : Z) :
  NoDup ids -> In i ids -> List.length (filter (fun j => j =? i) ids) = 1%nat.
Proof.
  induction 1 as [|a l Ha Hnd IH]; simpl; [intros [] | ].
  intros [-> | Hin].
  - rewrite Z.eqb_refl. simpl. f_equal.
    assert (E : filter (fun j => j =? i) l = []); [ | now rewrite E].
    clear IH Hnd. induction l as [|b l IHl]; simpl; [reflexivity | ].
    destruct (Z.eqb_spec b i) as [-> | _].
    + exfalso. apply Ha. now left.
    + apply IHl. intros H. apply Ha. now right.
  - destruct (Z.eqb_spec a i) as [-> | _]; [contradiction | now apply IH].
Qed.

(** In the terms of [referential_integrity]: starting from an empty blog,
    the user of every stored comment and of every stored post is exactly one
    stored user, whatever was requested. *)
Lemma user_references_hold (ext : Extern) (reqs : list (Route * Request)) :
  let d := database (run ext reqs empty_world) in
  forallb (fun c => refers_to_one (map User.id (user_table d)) (Comment.user_id c))
          (comment_table d) = true
  /\ forallb (post_refs_ok d) (blog_posts_table d) = true.
Proof.
  intros d.
  assert (H : user_refs d).
  { apply run_user_refs. split; [constructor | split; intros ? []]. }
  destruct H as (Hnd & Hc & Hp). split; apply forallb_forall.
  - intros c Hin. destruct (Hc c Hin) as (i & -> & Hi). simpl.
    now rewrite count_key_one.
  - intros p Hin. unfold post_refs_ok.
    destruct (Hp p Hin) as (i & -> & Hi). simpl. now rewrite count_key_one.
Qed.

(** C9.  Register, publish a post, comment on it, delete the post: the comment
    is kept with its post reference set to NULL, so it references no post.
    A comment submitted to the page of a post that does not exist is stored
    as well, referencing the missing id. *)
Theorem delete_post_orphans_comment :
  referential_integrity
    (database (run toy_ext [(route_register, register_ada);
                            (route_add_new_post, new_post_T);
                            (route_show_post 1, comment_hi)] empty_world)) = true
  /\ database (run toy_ext [(route_register, register_ada);
                            (route_add_new_post, new_post_T);
                            (route_show_post 1, comment_hi);
                            (route_delete_post 1, get_request)] empty_world)
     = mkDatabase [User.mk 1 "ada@example.org" "Ada" "pw1$s0"]
                  []
                  [Comment.mk 1 "hi" (Some 1) None]
  /\ referential_integrity
       (database (run toy_ext [(route_register, register_ada);
                               (route_add_new_post, new_post_T);
                               (route_show_post 1, comment_hi);
                               (route_delete_post 1, get_request)] empty_world))
     = false
  /\ referential_integrity
       (database (run toy_ext [(route_register, register_ada);
                               (route_show_post 9, comment_hi)] empty_world))
     = false.
Proof.
  vm_compute. repeat split.
Qed.

(** * Further properties of the views *)

Ltac split_match :=
  match goal with
  | |- context [match ?x with _ => _ end] =>
      match type of x with
      | bool => destruct x eqn:?
      | option _ => destruct x eqn:?
      | Method => destruct x eqn:?
      | list _ => destruct x eqn:?
      end
  end.

Ltac unfold_views :=
  unfold handle, view_function, dispatch, admin_only, register, login,
    logout, show_post, get_all_posts, about, contact, add_new_post, delete_post;
  unfold_app;
  unfold db_session_add, db_session_delete, db_session_commit, login_user,
    logout_user, flash, getattr_BlogPost, setattr_BlogPost;
  unfold_app; simpl.

Lemma email_taken_false (users : list User.t) (e : string) :
  (forall u, In u users -> User.email u <> e) -> email_taken users e = false.
Proof.
  intros H. unfold email_taken.
  destruct (existsb _ users) eqn:E; [ | reflexivity].
  apply existsb_exists in E. destruct E as (u & Hin & He).
  apply String.eqb_eq in He. now apply H in Hin.
Qed.

Lemma email_taken_not_in (users : list User.t) (e : string) :
  email_taken users e = false -> ~ In e (map User.email users).
Proof.
  unfold email_taken. intros E Hin. apply in_map_iff in Hin.
  destruct Hin as (u & He & Hin).
  assert (X : existsb (fun u => String.eqb (User.email u) e) users = true).
  { apply existsb_exists. exists u. split; [exact Hin | ].
    now apply String.eqb_eq. }
  congruence.
Qed.

Lemma title_taken_not_in (posts : list BlogPost.t) (t : string) :
  title_taken posts t = false -> ~ In t (map BlogPost.title posts).
Proof.
  unfold title_taken. intros E Hin. apply in_map_iff in Hin.
  destruct Hin as (p & Ht & Hin).
  assert (X : existsb (fun p => String.eqb (BlogPost.title p) t) posts = true).
  { apply existsb_exists. exists p. split; [exact Hin | ].
    now apply String.eqb_eq. }
  congruence.
Qed.

(** In a table with distinct keys [query.get] finds the row itself. *)
Lemma find_key_unique {A} (key : A -> Z) (l : list A) (a : A) :
  NoDup (map key l) -> In a l -> find (fun x => key x =? key a) l = Some a.
Proof.
  induction l as [|b l IH]; simpl; [intros _ [] | ].
  intros Hnd [-> | Hin].
  - now rewrite Z.eqb_refl.
  - apply NoDup_cons_iff in Hnd. destruct Hnd as [Hb Hnd].
    destruct (Z.eqb_spec (key b) (key a)) as [E | _]; [ | now apply IH].
    exfalso. apply Hb. rewrite E. now apply in_map.
Qed.

(** ** Registration and login that succeed *)

(** What a registration with an unused email does. *)
Lemma register_fresh_email_run (ext : Extern) (req : Request) (w : World) :
  let form := new_form RegisterUserForm req [] in
  let new_user :=
    User.mk (next_rowid (map User.id (user_table (database w))))
            (data form "email") (data form "name")
            (generate_password_hash ext (salt req) (data form "password")) in
  world_user w = None ->
  validate_on_submit ext form = true ->
  (forall u, In u (user_table (database w)) -> User.email u <> data form "email") ->
  handle ext route_register req w
  = (redirect (url_for "get_all_posts" []),
     mkWorld (mkDatabase (user_table (database w) ++ [new_user])
                         (blog_posts_table (database w))
                         (comment_table (database w)))
             (mkSession (Some (User.id new_user)) (_flashes (session w)))).
Proof.
  intros form new_user Hu Hv Hfresh.
  unfold handle, view_function, dispatch, register.
  rewrite (bind_return _ (current_user_run _)). simpl.
  fold (world_user w). rewrite Hu. simpl. fold form. rewrite Hv.
  unfold query at 1. unfold bind at 1. simpl.
  rewrite (filter_by_email_first_none _ _ Hfresh).
  unfold_app. unfold db_session_add, db_session_commit, login_user.
  unfold_app. simpl.
  rewrite (email_taken_false _ _ Hfresh). reflexivity.
Qed.

(** A session holding the key of the user just appended belongs to him. *)
Lemma appended_user_session (d : Database) (e n pw : string) (fl : list string) :
  let new_user := User.mk (next_rowid (map User.id (user_table d))) e n pw in
  world_user (mkWorld (mkDatabase (user_table d ++ [new_user])
                                  (blog_posts_table d) (comment_table d))
                      (mkSession (Some (User.id new_user)) fl))
  = Some new_user.
Proof.
  intros new_user.
  unfold world_user, user_of_session, load_user, User_query_get. simpl.
  rewrite find_snoc, find_key_absent by apply next_rowid_fresh.
  simpl. now rewrite Z.eqb_refl.
Qed.

(** X1.  A registration that validates, from a session that is not logged
    in, with an email no stored user has: one user is appended under the next
    key, with the submitted name and email and the hash of the submitted
    password; posts and comments are untouched; the session is logged in as
    the new user; the response is a redirect to the post listing. *)
Theorem register_new_user (ext : Extern) (req : Request) (w : World) :
  let form := new_form RegisterUserForm req [] in
  let new_user :=
    User.mk (next_rowid (map User.id (user_table (database w))))
            (data form "email") (data form "name")
            (generate_password_hash ext (salt req) (data form "password")) in
  world_user w = None ->
  validate_on_submit ext form = true ->
  (forall u, In u (user_table (database w)) -> User.email u <> data form "email") ->
  handle ext route_register req w
  = (redirect (url_for "get_all_posts" []),
     mkWorld (mkDatabase (user_table (database w) ++ [new_user])
                         (blog_posts_table (database w))
                         (comment_table (database w)))
             (mkSession (Some (User.id new_user)) (_flashes (session w))))
  /\ world_user (snd (handle ext route_register req w)) = Some new_user.
Proof.
  intros form new_user Hu Hv Hfresh.
  pose proof (register_fresh_email_run ext req w Hu Hv Hfresh) as E.
  split; [exact E | ]. rewrite E. apply appended_user_session.
Qed.

(** Bob registers on the blog where only Ada is stored. *)
Lemma register_new_user_witness :
  world_user (anonymise ada_world) = None
  /\ validate_on_submit toy_ext (new_form RegisterUserForm register_bob []) = true
  /\ (forall u, In u (user_table (database (anonymise ada_world))) ->
                User.email u <> "bob@example.org")
  /\ world_user (snd (handle toy_ext route_register register_bob
                             (anonymise ada_world)))
     = Some (User.mk 2 "bob@example.org" "Bob" "pw2$s0").
Proof.
  assert (Hfresh : forall u, In u (user_table (database (anonymise ada_world))) ->
                             User.email u <> "bob@example.org").
  { intros u [<- | []]; discriminate. }
  split; [reflexivity | split; [reflexivity | split; [exact Hfresh | ]]].
  apply (register_new_user toy_ext register_bob (anonymise ada_world)
           eq_refl eq_refl Hfresh).
Defined.

(** What a login with verified credentials does. *)
Lemma login_verified_run (ext : Extern) (req : Request) (w : World) (u : User.t) :
  let form := new_form LoginUserForm req [] in
  world_user w = None ->
  validate_on_submit ext form = true ->
  User_query_filter_by_email_first (database w) (data form "email") = Some u ->
  check_password_hash ext (User.password u) (data form "password") = true ->
  handle ext route_login req w
  = (redirect (url_for "get_all_posts" []),
     mkWorld (database w) (mkSession (Some (User.id u)) (_flashes (session w)))).
Proof.
  intros form Hu Hv Hq Hc.
  unfold handle, view_function, dispatch, login.
  rewrite (bind_return _ (current_user_run _)). simpl.
  fold (world_user w). rewrite Hu. simpl. fold form. rewrite Hv.
  unfold query at 1. unfold bind at 1. simpl. rewrite Hq, Hc. reflexivity.
Qed.

(** X2.  A login that validates, from a session that is not logged in, with
    the email of a stored user whose hash verifies the password: the session
    takes that user's identifier, the database is untouched, and the response
    is a redirect to the post listing.  With distinct user keys the session
    then belongs to that very user. *)
Theorem login_accepted (ext : Extern) (req : Request) (w : World) (u : User.t) :
  let form := new_form LoginUserForm req [] in
  world_user w = None ->
  validate_on_submit ext form = true ->
  User_query_filter_by_email_first (database w) (data form "email") = Some u ->
  check_password_hash ext (User.password u) (data form "password") = true ->
  handle ext route_login req w
  = (redirect (url_for "get_all_posts" []),
     mkWorld (database w) (mkSession (Some (User.id u)) (_flashes (session w))))
  /\ (NoDup (map User.id (user_table (database w))) ->
      world_user (snd (handle ext route_login req w)) = Some u).
Proof.
  intros form Hu Hv Hq Hc.
  pose proof (login_verified_run ext req w u Hu Hv Hq Hc) as E.
  split; [exact E | ]. intros Hnd. rewrite E.
  unfold world_user, user_of_session, load_user, User_query_get. simpl.
  apply find_key_unique; [exact Hnd | ].
  unfold User_query_filter_by_email_first in Hq. now apply find_some in Hq.
Qed.

(** Ada logs in with her password. *)
Lemma login_accepted_witness :
  world_user visitor_world = None
  /\ validate_on_submit toy_ext (new_form LoginUserForm login_ada []) = true
  /\ User_query_filter_by_email_first (database visitor_world) "ada@example.org"
     = Some (User.mk 1 "ada@example.org" "Ada" "pw1$s0")
  /\ check_password_hash toy_ext "pw1$s0" "pw1" = true
  /\ handle toy_ext route_login login_ada visitor_world
     = (redirect (url_for "get_all_posts" []),
        mkWorld (database visitor_world) (mkSession (Some 1) [])).
Proof.
  repeat (split; [reflexivity | ]).
  apply (login_accepted toy_ext login_ada visitor_world
           (User.mk 1 "ada@example.org" "Ada" "pw1$s0")); reflexivity.
Defined.

(** X3.  A session that is already logged in is sent to the post listing by
    both the registration and the login view, whatever is submitted; nothing
    is stored, nobody else is logged in and no message is flashed. *)
Theorem logged_in_register_login_redirect
        (ext : Extern) (req1 req2 : Request) (w : World) (u : User.t) :
  world_user w = Some u ->
  handle ext route_register req1 w = (redirect (url_for "get_all_posts" []), w)
  /\ handle ext route_login req2 w = (redirect (url_for "get_all_posts" []), w).
Proof.
  intros Hu. split; unfold handle, view_function, dispatch, register, login;
    rewrite (bind_return _ (current_user_run _)); simpl;
    fold (world_user w); rewrite Hu; simpl; now rewrite world_eta.
Qed.

(** Bob is logged in and submits Ada's credentials. *)
Lemma logged_in_register_login_redirect_witness :
  world_user bob_world = Some (User.mk 2 "bob@example.org" "Bob" "pw2$s0")
  /\ handle toy_ext route_register register_ada bob_world
     = (redirect (url_for "get_all_posts" []), bob_world)
  /\ handle toy_ext route_login login_ada bob_world
     = (redirect (url_for "get_all_posts" []), bob_world).
Proof.
  split; [reflexivity | ].
  apply (logged_in_register_login_redirect toy_ext) with
    (u := User.mk 2 "bob@example.org" "Bob" "pw2$s0").
  reflexivity.
Defined.

(** X4.  The login view changes who the session belongs to only after a
    check: if the session's [_user_id] differs after a request to it, then
    the form validated, a stored user has the submitted email, the stored
    hash of that user verifies the submitted password, and the session now
    holds that user's identifier. *)
Theorem login_requires_verified_password
        (ext : Extern) (req : Request) (w : World) :
  let form := new_form LoginUserForm req [] in
  _user_id (session (snd (handle ext route_login req w))) <> _user_id (session w) ->
  validate_on_submit ext form = true
  /\ exists u,
      In u (user_table (database w))
      /\ User.email u = data form "email"
      /\ check_password_hash ext (User.password u) (data form "password") = true
      /\ _user_id (session (snd (handle ext route_login req w)))
         = Some (User.id u).
Proof.
  intros form. unfold handle, view_function, dispatch, login.
  unfold_app. unfold login_user, flash. unfold_app. simpl.
  fold (world_user w). fold form.
  destruct (is_authenticated (world_user w)); simpl; [congruence | ].
  destruct (validate_on_submit ext form); simpl; [ | congruence].
  destruct (User_query_filter_by_email_first (database w) (data form "email"))
    as [u|] eqn:Hq; simpl; [ | congruence].
  destruct (check_password_hash ext (User.password u) (data form "password"))
    eqn:Hc; simpl; [ | congruence].
  intros _. split; [reflexivity | ]. exists u.
  unfold User_query_filter_by_email_first in Hq. apply find_some in Hq.
  destruct Hq as [Hin He]. apply String.eqb_eq in He. auto.
Qed.

(** Ada's login changes the session of the visitor. *)
Lemma login_requires_verified_password_witness :
  _user_id (session (snd (handle toy_ext route_login login_ada visitor_world)))
  <> _user_id (session visitor_world)
  /\ exists u,
      In u (user_table (database visitor_world))
      /\ User.email u = "ada@example.org"
      /\ check_password_hash toy_ext (User.password u) "pw1" = true
      /\ _user_id (session (snd (handle toy_ext route_login login_ada
                                        visitor_world)))
         = Some (User.id u).
Proof.
  assert (H : _user_id (session (snd (handle toy_ext route_login login_ada
                                             visitor_world)))
              <> _user_id (session visitor_world)).
  { vm_compute. discriminate. }
  split; [exact H | ].
  apply (login_requires_verified_password toy_ext login_ada visitor_world H).
Defined.

(** X5.  Register, log out, log in: after a registration that succeeds and a
    logout, a login form that validates and carries the registered email and
    password is accepted, provided the hash made at registration verifies the
    password it was made from.  The session is the new user's again. *)
Theorem register_logout_login
        (ext : Extern) (reg mid lin : Request) (w : World) :
  let rform := new_form RegisterUserForm reg [] in
  let lform := new_form LoginUserForm lin [] in
  let w1 := snd (handle ext route_register reg w) in
  let w2 := snd (handle ext route_logout mid w1) in
  world_user w = None ->
  validate_on_submit ext rform = true ->
  (forall u, In u (user_table (database w)) -> User.email u <> data rform "email") ->
  validate_on_submit ext lform = true ->
  data lform "email" = data rform "email" ->
  data lform "password" = data rform "password" ->
  check_password_hash
    ext (generate_password_hash ext (salt reg) (data rform "password"))
    (data rform "password") = true ->
  world_user w2 = None
  /\ fst (handle ext route_login lin w2) = redirect (url_for "get_all_posts" [])
  /\ world_user (snd (handle ext route_login lin w2)) = world_user w1
  /\ database (snd (handle ext route_login lin w2)) = database w1.
Proof.
  intros rform lform w1 w2 Hu Hrv Hfresh Hlv He Hp Hc.
  pose proof (register_fresh_email_run ext reg w Hu Hrv Hfresh) as E1.
  assert (E2 : w2 = mkWorld (database w1) (mkSession None (_flashes (session w1)))).
  { unfold w2, handle, view_function. now rewrite logout_run. }
  assert (A2 : world_user w2 = None) by (rewrite E2; reflexivity).
  split; [exact A2 | ].
  set (new_user :=
         User.mk (next_rowid (map User.id (user_table (database w))))
                 (data rform "email") (data rform "name")
                 (generate_password_hash ext (salt reg) (data rform "password")))
    in *.
  assert (D1 : database w1
               = mkDatabase (user_table (database w) ++ [new_user])
                            (blog_posts_table (database w))
                            (comment_table (database w))).
  { unfold w1. now rewrite E1. }
  assert (U1 : world_user w1 = Some new_user).
  { unfold w1. rewrite E1. apply appended_user_session. }
  clearbody w2 w1.
  assert (Q : User_query_filter_by_email_first (database w2) (data lform "email")
              = Some new_user).
  { rewrite E2. simpl. rewrite D1. unfold User_query_filter_by_email_first.
    simpl. rewrite find_snoc.
    fold (User_query_filter_by_email_first (database w) (data lform "email")).
    rewrite He, (filter_by_email_first_none _ _ Hfresh). simpl.
    now rewrite String.eqb_refl. }
  assert (C : check_password_hash ext (User.password new_user)
                                  (data lform "password") = true).
  { rewrite Hp. exact Hc. }
  pose proof (login_verified_run ext lin w2 new_user A2 Hlv Q C) as E3.
  rewrite E3. simpl. split; [reflexivity | ].
  split; [ | now rewrite E2].
  rewrite U1, E2. unfold world_user, user_of_session, load_user, User_query_get.
  simpl. rewrite D1. simpl.
  rewrite find_snoc, find_key_absent by apply next_rowid_fresh.
  simpl. now rewrite Z.eqb_refl.
Qed.

(** Ada registers on the empty blog, logs out and logs in again. *)
Lemma register_logout_login_witness :
  world_user empty_world = None
  /\ validate_on_submit toy_ext (new_form RegisterUserForm register_ada []) = true
  /\ validate_on_submit toy_ext (new_form LoginUserForm login_ada []) = true
  /\ check_password_hash toy_ext (generate_password_hash toy_ext "s0" "pw1") "pw1"
     = true
  /\ world_user
       (snd (handle toy_ext route_login login_ada
               (snd (handle toy_ext route_logout get_request
                       (snd (handle toy_ext route_register register_ada
                               empty_world))))))
     = world_user (snd (handle toy_ext route_register register_ada empty_world)).
Proof.
  repeat (split; [reflexivity | ]).
  apply (register_logout_login toy_ext register_ada get_request login_ada
           empty_world); try reflexivity.
  intros u [].
Defined.

(** ** Comments *)






(** ** Publishing and deleting *)

Lemma query_get_key (d : Database) (i : Z) (p : BlogPost.t) :
  BlogPost_query_get d i = Some p -> BlogPost.id p = i /\ In p (blog_posts_table d).
Proof.
  unfold BlogPost_query_get. intros H. apply find_some in H.
  destruct H as [Hin He]. apply Z.eqb_eq in He. auto.
Qed.

Lemma find_filter_other {A} (key : A -> Z) (l : list A) (i j : Z) :
  j <> i ->
  find (fun a => key a =? j) (filter (fun a => negb (key a =? i)) l)
  = find (fun a => key a =? j) l.
Proof.
  intros Hji. induction l as [|a l IH]; simpl; [reflexivity | ].
  destruct (Z.eqb_spec (key a) i) as [Ei | Ei]; simpl.
  - destruct (Z.eqb_spec (key a) j) as [Ej | Ej]; [congruence | exact IH].
  - destruct (key a =? j); [reflexivity | exact IH].
Qed.

Lemma find_filter_same {A} (key : A -> Z) (l : list A) (i : Z) :
  find (fun a => key a =? i) (filter (fun a => negb (key a =? i)) l) = None.
Proof.
  induction l as [|a l IH]; simpl; [reflexivity | ].
  destruct (key a =? i) eqn:E; simpl; [exact IH | ]. now rewrite E.
Qed.

Lemma nullify_post_cases (i : Z) (c : Comment.t) :
  (Comment.post_id c = Some i /\ Comment.post_id (nullify_post i c) = None)
  \/ (Comment.post_id c <> Some i /\ nullify_post i c = c).
Proof.
  unfold nullify_post. destruct (Comment.post_id c) as [j|] eqn:E.
  - destruct (Z.eqb_spec j i) as [-> | Hji].
    + left. split; reflexivity.
    + right. split; [congruence | reflexivity].
  - right. split; [discriminate | reflexivity].
Qed.

Lemma comments_of_deleted_post (i : Z) (l : list Comment.t) :
  filter (fun c => match Comment.post_id c with
                   | Some j => j =? i
                   | None => false
                   end) (map (nullify_post i) l) = [].
Proof.
  induction l as [|c l IH]; simpl; [reflexivity | ].
  destruct (nullify_post_cases i c) as [[_ E] | [Hc E]]; rewrite E.
  - exact IH.
  - destruct (Comment.post_id c) as [j|]; [ | exact IH].
    destruct (Z.eqb_spec j i) as [-> | _]; [congruence | exact IH].
Qed.

Lemma comments_of_other_post (i k : Z) (l : list Comment.t) :
  k <> i ->
  filter (fun c => match Comment.post_id c with
                   | Some j => j =? k
                   | None => false
                   end) (map (nullify_post i) l)
  = filter (fun c => match Comment.post_id c with
                     | Some j => j =? k
                     | None => false
                     end) l.
Proof.
  intros Hki. induction l as [|c l IH]; simpl; [reflexivity | ].
  destruct (nullify_post_cases i c) as [[Hc E] | [_ E]]; rewrite E.
  - rewrite Hc. destruct (Z.eqb_spec i k) as [Eik | _]; [congruence | exact IH].
  - now rewrite IH.
Qed.

(** What the admin's deletion of a stored post does. *)
Lemma delete_post_run (ext : Extern) (req : Request) (post_id : Z) (w : World)
      (u : User.t) (p : BlogPost.t) :
  world_user w = Some u -> User.id u = 1 ->
  BlogPost_query_get (database w) post_id = Some p ->
  handle ext (route_delete_post post_id) req w
  = (redirect (url_for "get_all_posts" []),
     mkWorld (mkDatabase
                (user_table (database w))
                (filter (fun q => negb (BlogPost.id q =? post_id))
                        (blog_posts_table (database w)))
                (map (nullify_post post_id) (comment_table (database w))))
             (session w)).
Proof.
  intros Hu H1 Hp. destruct (query_get_key _ _ _ Hp) as [Hid _].
  unfold handle, view_function, dispatch.
  rewrite (admin_only_admits _ (mkReqState (database w) (session w) []) u Hu H1).
  unfold delete_post, query, bind. simpl. rewrite Hp. simpl.
  unfold db_session_commit. simpl. now rewrite Hid.
Qed.

(** X8.  The admin deletes a stored post: the response is a redirect to the
    listing; the post is gone and every other post is found as before; users
    and the session are untouched; no comment is deleted, those of the
    deleted post lose their post reference and those of other posts are
    listed as before; and the page of the deleted post, fetched afterwards,
    shows no post and no comments. *)
Theorem delete_post_existing
        (ext : Extern) (req req' : Request) (post_id : Z) (w : World)
        (u : User.t) (p : BlogPost.t) :
  let w' := snd (handle ext (route_delete_post post_id) req w) in
  world_user w = Some u -> User.id u = 1 ->
  BlogPost_query_get (database w) post_id = Some p ->
  method req' = GET ->
  fst (handle ext (route_delete_post post_id) req w)
  = redirect (url_for "get_all_posts" [])
  /\ BlogPost_query_get (database w') post_id = None
  /\ (forall j, j <> post_id ->
                BlogPost_query_get (database w') j = BlogPost_query_get (database w) j)
  /\ user_table (database w') = user_table (database w)
  /\ session w' = session w
  /\ comment_table (database w') = map (nullify_post post_id) (comment_table (database w))
  /\ (forall j, j <> post_id ->
                Comment_query_filter_by_post_id_all (database w') j
                = Comment_query_filter_by_post_id_all (database w) j)
  /\ fst (handle ext (route_show_post post_id) req' w')
     = render_template "post.html"
         [("post", TPost None);
          ("form", TForm (new_form CreateCommentForm req' []));
          ("comments", TComments [])].
Proof.
  intros w' Hu H1 Hp Hget.
  pose proof (delete_post_run ext req post_id w u p Hu H1 Hp) as E.
  unfold w'. rewrite E. simpl. clear w'.
  assert (Hnone : BlogPost_query_get
                    (mkDatabase
                       (user_table (database w))
                       (filter (fun q => negb (BlogPost.id q =? post_id))
                               (blog_posts_table (database w)))
                       (map (nullify_post post_id) (comment_table (database w))))
                    post_id = None).
  { unfold BlogPost_query_get. simpl. apply find_filter_same. }
  split; [reflexivity | ].
  split; [exact Hnone | ].
  split; [intros j Hj; unfold BlogPost_query_get; simpl;
          now apply find_filter_other | ].
  split; [reflexivity | split; [reflexivity | split; [reflexivity | ]]].
  split; [intros j Hj; unfold Comment_query_filter_by_post_id_all; simpl;
          now apply comments_of_other_post | ].
  rewrite show_post_missing_get by (simpl; assumption). simpl.
  unfold Comment_query_filter_by_post_id_all. simpl.
  now rewrite comments_of_deleted_post.
Qed.

(** Ada deletes her post 1. *)
Lemma delete_post_existing_witness :
  world_user ada_world_with_post = Some (User.mk 1 "ada@example.org" "Ada" "pw1$s0")
  /\ BlogPost_query_get (database ada_world_with_post) 1
     = Some (BlogPost.mk 1 "T" "S" "April 05, 2024" "B" "U" (Some 1))
  /\ BlogPost_query_get
       (database (snd (handle toy_ext (route_delete_post 1) get_request
                              ada_world_with_post))) 1 = None.
Proof.
  split; [reflexivity | split; [reflexivity | ]].
  apply (delete_post_existing toy_ext get_request get_request 1 ada_world_with_post
           (User.mk 1 "ada@example.org" "Ada" "pw1$s0")
           (BlogPost.mk 1 "T" "S" "April 05, 2024" "B" "U" (Some 1)));
    reflexivity.
Defined.

(** X9.  A post the admin creates is stamped with the day of the request and
    with the admin's identifier as its user; it is appended after the posts
    already stored, which stay as they were, as do users, comments and the
    session. *)
Theorem add_new_post_stamp_and_frame
        (ext : Extern) (req : Request) (w : World) (u : User.t) :
  let form := new_form CreatePostForm req [] in
  let w' := snd (handle ext route_add_new_post req w) in
  world_user w = Some u -> User.id u = 1 ->
  validate_on_submit ext form = true ->
  title_taken (blog_posts_table (database w)) (data form "title") = false ->
  exists p,
    blog_posts_table (database w') = blog_posts_table (database w) ++ [p]
    /\ BlogPost.date p = today req
    /\ BlogPost.user_id p = Some (User.id u)
    /\ user_table (database w') = user_table (database w)
    /\ comment_table (database w') = comment_table (database w)
    /\ session w' = session w.
Proof.
  intros form w' Hu H1 Hv Ht. unfold w'.
  rewrite (add_new_post_stores ext req w u Hu H1 Hv Ht). simpl.
  eexists. split; [reflexivity | ]. simpl. rewrite H1. repeat split.
Qed.

(** Ada publishes the post titled T. *)
Lemma add_new_post_stamp_and_frame_witness :
  world_user ada_world = Some (User.mk 1 "ada@example.org" "Ada" "pw1$s0")
  /\ validate_on_submit toy_ext (new_form CreatePostForm new_post_T []) = true
  /\ title_taken (blog_posts_table (database ada_world)) "T" = false
  /\ exists p,
      blog_posts_table (database (snd (handle toy_ext route_add_new_post new_post_T
                                              ada_world)))
      = blog_posts_table (database ada_world) ++ [p]
      /\ BlogPost.date p = "April 05, 2024"
      /\ BlogPost.user_id p = Some 1
      /\ user_table (database (snd (handle toy_ext route_add_new_post new_post_T
                                           ada_world)))
         = user_table (database ada_world)
      /\ comment_table (database (snd (handle toy_ext route_add_new_post new_post_T
                                              ada_world)))
         = comment_table (database ada_world)
      /\ session (snd (handle toy_ext route_add_new_post new_post_T ada_world))
         = session ada_world.
Proof.
  split; [reflexivity | split; [reflexivity | split; [reflexivity | ]]].
  apply (add_new_post_stamp_and_frame toy_ext new_post_T ada_world
           (User.mk 1 "ada@example.org" "Ada" "pw1$s0")); reflexivity.
Defined.

(** X10.  Whoever registers first on a blog with no users gets identifier 1
    and is thereby the admin: after that registration the session passes the
    guard, so a guarded view answers what the bare view answers. *)
Theorem first_registered_is_admin (ext : Extern) (req : Request) (w : World) :
  let w' := snd (handle ext route_register req w) in
  user_table (database w) = [] ->
  validate_on_submit ext (new_form RegisterUserForm req []) = true ->
  is_admin_world w' = true
  /\ forall fn : App Response, dispatch (admin_only fn) w' = dispatch fn w'.
Proof.
  intros w' Hempty Hv.
  assert (Hu : world_user w = None).
  { unfold world_user, user_of_session, load_user, User_query_get.
    rewrite Hempty. now destruct (_user_id (session w)). }
  assert (Hfresh : forall u, In u (user_table (database w)) ->
                             User.email u
                             <> data (new_form RegisterUserForm req []) "email").
  { rewrite Hempty. intros u []. }
  pose proof (register_fresh_email_run ext req w Hu Hv Hfresh) as E.
  assert (U : exists u, world_user w' = Some u /\ User.id u = 1).
  { unfold w'. rewrite E. eexists. split; [apply appended_user_session | ].
    simpl. now rewrite Hempty. }
  destruct U as (u & Hw' & H1). split.
  - unfold is_admin_world. rewrite Hw'. now apply Z.eqb_eq.
  - intros fn. unfold dispatch.
    now rewrite (admin_only_admits fn (mkReqState (database w') (session w') [])
                                   u Hw' H1).
Qed.

(** Ada registers on the empty blog. *)
Lemma first_registered_is_admin_witness :
  user_table (database empty_world) = []
  /\ validate_on_submit toy_ext (new_form RegisterUserForm register_ada []) = true
  /\ is_admin_world (snd (handle toy_ext route_register register_ada empty_world))
     = true.
Proof.
  split; [reflexivity | split; [reflexivity | ]].
  apply (first_registered_is_admin toy_ext register_ada empty_world eq_refl eq_refl).
Defined.

(** ** What no request does *)

Ltac unfold_all_views :=
  unfold handle, view_function, dispatch, admin_only, register, login,
    logout, show_post, get_all_posts, about, contact, add_new_post, edit_post,
    delete_post;
  unfold_app;
  unfold db_session_add, db_session_delete, db_session_commit, login_user,
    logout_user, flash, getattr_BlogPost, setattr_BlogPost;
  unfold_app; simpl.

(** X11.  A session that is not the admin's never changes the posts: on every
    route and for every request the post table is left as it was, and the
    comments stored before are still there, unchanged and in the same order,
    with at most new ones after them. *)
Theorem non_admin_leaves_posts
        (ext : Extern) (r : Route) (req : Request) (w : World) :
  let d' := database (snd (handle ext r req w)) in
  is_admin_world w = false ->
  blog_posts_table d' = blog_posts_table (database w)
  /\ exists l, comment_table d' = comment_table (database w) ++ l.
Proof.
  intros d' Hna. unfold d'. clear d'. unfold is_admin_world in Hna.
  destruct r; unfold_all_views; fold (world_user w);
    destruct (world_user w) as [u|] eqn:Hu; simpl; try rewrite Hna; simpl;
    repeat (split_match; simpl);
    (split; [reflexivity | ]);
    first [ exists []; now rewrite app_nil_r | eexists; reflexivity ].
Qed.

(** Bob, user 2, asks for the deletion of Ada's post. *)
Lemma non_admin_leaves_posts_witness :
  is_admin_world bob_world_with_post = false
  /\ blog_posts_table (database (snd (handle toy_ext (route_delete_post 1) get_request
                                             bob_world_with_post)))
     = blog_posts_table (database bob_world_with_post).
Proof.
  split; [reflexivity | ].
  apply (non_admin_leaves_posts toy_ext (route_delete_post 1) get_request
           bob_world_with_post eq_refl).
Defined.

(** X12.  No request removes or alters a stored user: the user table after
    is the table before with at most one user added at its end. *)
Theorem users_only_added
        (ext : Extern) (r : Route) (req : Request) (w : World) :
  exists l,
    user_table (database (snd (handle ext r req w)))
    = user_table (database w) ++ l
    /\ (List.length l <= 1)%nat.
Proof.
  destruct (handle_db_step ext r req w); simpl;
    first [ exists []; split; [now rewrite app_nil_r | simpl; lia]
          | eexists; split; [reflexivity | simpl; lia] ].
Qed.

(** X13.  The only error page the views ask for is the guard's: when a
    request is answered with the page of an aborted request, its code is 403,
    the route is one of the three guarded ones and the session is not the
    admin's. *)
Theorem abort_only_by_guard
        (ext : Extern) (r : Route) (req : Request) (w : World) (code : Z) :
  fst (handle ext r req w) = error_page code ->
  code = 403 /\ post_mutation_route r = true /\ is_admin_world w = false.
Proof.
  unfold is_admin_world.
  destruct r; unfold_all_views; fold (world_user w);
    destruct (world_user w) as [u|] eqn:Hu; simpl;
    repeat (split_match; simpl);
    intros H; try discriminate H; inversion H; auto.
Qed.

(** Bob asks for the deletion of Ada's post. *)
Lemma abort_only_by_guard_witness :
  fst (handle toy_ext (route_delete_post 1) get_request bob_world_with_post)
  = error_page 403
  /\ post_mutation_route (route_delete_post 1) = true
  /\ is_admin_world bob_world_with_post = false.
Proof.
  split; [reflexivity | ].
  apply (abort_only_by_guard toy_ext (route_delete_post 1) get_request
           bob_world_with_post 403 eq_refl).
Defined.

(** X14.  Only the registration, login and logout views change who the
    session belongs to: on every other route [_user_id] is left as it was. *)
Theorem session_user_kept
        (ext : Extern) (r : Route) (req : Request) (w : World) :
  session_route r = false ->
  _user_id (session (snd (handle ext r req w))) = _user_id (session w).
Proof.
  intros Hr. destruct r; try discriminate Hr; unfold_all_views;
    fold (world_user w); destruct (world_user w) as [u|] eqn:Hu; simpl;
    repeat (split_match; simpl); reflexivity.
Qed.

(** Bob comments on Ada's post and stays logged in. *)
Lemma session_user_kept_witness :
  session_route (route_show_post 1) = false
  /\ _user_id (session (snd (handle toy_ext (route_show_post 1) comment_hi
                                    bob_world_with_post)))
     = Some 2.
Proof.
  split; [reflexivity | ].
  apply (session_user_kept toy_ext (route_show_post 1) comment_hi
           bob_world_with_post eq_refl).
Defined.

(** X15.  A session whose [_user_id] matches no stored user is served as an
    anonymous one: on every route the response, the database and the flashed
    messages are those the same request gets with nobody logged in. *)
Theorem unknown_user_is_anonymous
        (ext : Extern) (r : Route) (req : Request) (w : World) :
  world_user w = None ->
  fst (handle ext r req w) = fst (handle ext r req (anonymise w))
  /\ database (snd (handle ext r req w))
     = database (snd (handle ext r req (anonymise w)))
  /\ _flashes (session (snd (handle ext r req w)))
     = _flashes (session (snd (handle ext r req (anonymise w)))).
Proof.
  intros Hu. unfold world_user in Hu.
  destruct r; unfold_all_views; rewrite ?Hu; simpl;
    repeat (split_match; simpl); repeat split;
    first [ reflexivity | congruence | simpl in *; discriminate ].
Qed.

(** A cookie naming user 5, who is not stored, on the new-post route. *)
Lemma unknown_user_is_anonymous_witness :
  world_user stale_world = None
  /\ fst (handle toy_ext route_add_new_post new_post_T stale_world)
     = fst (handle toy_ext route_add_new_post new_post_T (anonymise stale_world)).
Proof.
  split; [reflexivity | ].
  apply (unknown_user_is_anonymous toy_ext route_add_new_post new_post_T
           stale_world eq_refl).
Defined.



(** ** Keys, emails and titles stay distinct *)

(** Every request writes by a [db_write]: the unique columns were checked
    when the row went in. *)
Lemma handle_db_write (ext : Extern) (r : Route) (req : Request) (w : World) :
  db_write (database w) (database (snd (handle ext r req w))).
Proof.
  destruct r; unfold_all_views; fold (world_user w);
    destruct (world_user w) as [u|] eqn:Hu; simpl;
    repeat (split_match; simpl);
    first [ apply write_nothing | apply write_user; assumption
          | apply write_post; assumption | apply write_comment
          | apply write_delete ].
Qed.

Lemma NoDup_snoc {A} (l : list A) (x : A) :
  NoDup l -> ~ In x l -> NoDup (l ++ [x]).
Proof.
  intros Hl Hx. apply NoDup_app; [exact Hl | | ].
  - constructor; [intros [] | constructor].
  - intros a Ha [<- | []]. contradiction.
Qed.

Lemma NoDup_map_filter {A B} (f : A -> B) (g : A -> bool) (l : list A) :
  NoDup (map f l) -> NoDup (map f (filter g l)).
Proof.
  induction l as [|a l IH]; simpl; [auto | ].
  intros H. apply NoDup_cons_iff in H. destruct H as [Ha Hl].
  destruct (g a); simpl; [ | now apply IH].
  constructor; [ | now apply IH].
  intros Hin. apply Ha. apply in_map_iff in Hin.
  destruct Hin as (b & Hb & Hin). apply filter_In in Hin.
  rewrite <- Hb. apply in_map. apply Hin.
Qed.

Lemma nullify_post_id (i : Z) (l : list Comment.t) :
  map Comment.id (map (nullify_post i) l) = map Comment.id l.
Proof.
  rewrite map_map. apply map_ext. intros c. unfold nullify_post.
  destruct (Comment.post_id c) as [j|]; [ | reflexivity].
  destruct (j =? i); reflexivity.
Qed.

Lemma db_write_unique (d d' : Database) :
  store_unique d -> db_write d d' -> store_unique d'.
Proof.
  intros (Hu & Hp & Hc & He & Ht) Hw.
  destruct Hw as [ | e n pw Hfree | t st dt b img uid Hfree | c uid pid | i ];
    unfold store_unique; simpl.
  - auto 6.
  - rewrite !map_app. simpl. repeat split; auto.
    + apply NoDup_snoc; [exact Hu | apply next_rowid_fresh].
    + apply NoDup_snoc; [exact He | now apply email_taken_not_in].
  - rewrite !map_app. simpl. repeat split; auto.
    + apply NoDup_snoc; [exact Hp | apply next_rowid_fresh].
    + apply NoDup_snoc; [exact Ht | now apply title_taken_not_in].
  - rewrite !map_app. simpl. repeat split; auto.
    apply NoDup_snoc; [exact Hc | apply next_rowid_fresh].
  - rewrite nullify_post_id. repeat split; auto; now apply NoDup_map_filter.
Qed.

(** X17.  Along every sequence of requests the primary keys of each table,
    the emails of the users and the titles of the posts stay pairwise
    distinct, if they were at the start. *)
Theorem run_keeps_unique
        (ext : Extern) (reqs : list (Route * Request)) (w : World) :
  store_unique (database w) -> store_unique (database (run ext reqs w)).
Proof.
  revert w. induction reqs as [|[r req] reqs IH]; intros w Hw; simpl.
  - exact Hw.
  - apply IH. apply (db_write_unique (database w)); [exact Hw | ].
    apply handle_db_write.
Qed.

(** The empty blog, and whatever is requested of it. *)
Lemma run_keeps_unique_witness :
  store_unique (database empty_world)
  /\ forall reqs, store_unique (database (run toy_ext reqs empty_world)).
Proof.
  assert (H : store_unique (database empty_world)).
  { repeat split; constructor. }
  split; [exact H | ].
  intros reqs. apply (run_keeps_unique toy_ext reqs empty_world H).
Defined.

(** X18.  Along every sequence of requests, the user of every stored comment
    and of every stored post is exactly one stored user, if user keys were
    distinct and those references held at the start. *)
Theorem run_keeps_user_references
        (ext : Extern) (reqs : list (Route * Request)) (w : World) :
  let d := database (run ext reqs w) in
  user_refs (database w) ->
  forallb (fun c => refers_to_one (map User.id (user_table d)) (Comment.user_id c))
          (comment_table d) = true
  /\ forallb (post_refs_ok d) (blog_posts_table d) = true.
Proof.
  intros d Hw.
  destruct (run_user_refs ext reqs w Hw) as (Hnd & Hc & Hp).
  fold d in Hnd, Hc, Hp. split; apply forallb_forall.
  - intros c Hin. destruct (Hc c Hin) as (i & -> & Hi). simpl.
    now rewrite count_key_one.
  - intros p Hin. unfold post_refs_ok.
    destruct (Hp p Hin) as (i & -> & Hi). simpl. now rewrite count_key_one.
Qed.

(** Bob's blog with Ada's post, and whatever is requested of it. *)
Lemma run_keeps_user_references_witness :
  user_refs (database bob_world_with_post)
  /\ forall reqs,
      forallb (post_refs_ok (database (run toy_ext reqs bob_world_with_post)))
              (blog_posts_table (database (run toy_ext reqs bob_world_with_post)))
      = true.
Proof.
  assert (H : user_refs (database bob_world_with_post)).
  { split; [ | split].
    - simpl. repeat constructor; simpl; intuition discriminate.
    - intros c [].
    - intros p [<- | []]. exists 1. split; [reflexivity | now left]. }
  split; [exact H | ].
  intros reqs. apply (run_keeps_user_references toy_ext reqs bob_world_with_post H).
Defined.

(** X19.  A session that is not logged in writes nothing but a registration:
    on every route and for every request, posts and comments are left as
    they were. *)
Theorem anonymous_writes_no_content
        (ext : Extern) (r : Route) (req : Request) (w : World) :
  world_user w = None ->
  blog_posts_table (database (snd (handle ext r req w)))
  = blog_posts_table (database w)
  /\ comment_table (database (snd (handle ext r req w)))
     = comment_table (database w).
Proof.
  intros Hu. unfold world_user in Hu.
  destruct r; unfold_all_views; rewrite ?Hu; simpl;
    repeat (split_match; simpl); split;
    first [ reflexivity | congruence | simpl in *; discriminate ].
Qed.

(** A visitor submits a comment. *)
Lemma anonymous_writes_no_content_witness :
  world_user visitor_world = None
  /\ comment_table (database (snd (handle toy_ext (route_show_post 1) comment_hi
                                          visitor_world)))
     = comment_table (database visitor_world).
Proof.
  split; [reflexivity | ].
  apply (anonymous_writes_no_content toy_ext (route_show_post 1) comment_hi
           visitor_world eq_refl).
Defined.
